(** * StoryQuest: player progression and mission economy

    A shallow embedding of the progression core of the repository:
    - [attached_assets/user.py]: the [UserProgress] model and its ledger,
      relationship and experience methods;
    - [attached_assets/mission_generator.py]: difficulty inference and the
      mission life cycle ([complete_mission], [fail_mission]);
    - [attached_assets/character.py] and
      [attached_assets/character_evolution_service.py]: the relationship
      network of [CharacterEvolution] and its batch update, and the trait,
      role and plot methods;
    - [attached_assets/story_maker.py]: field extraction;
    - [server/app.py]: the completion route of the in-memory server.

    Conventions of the embedding.
    - Python [int] is [Z]; [str] is [string]; a [dict] that is only read and
      written by key is a [gmap]; a [dict] that is iterated is an association
      list in insertion order (its keys are distinct, which theorems assume
      where they need it); a JSONB list is a [list].
    - The SQLAlchemy session is explicit state: the rows a function touches and
      the list of [Transaction] rows added so far. A method is given as its
      statements leave the Python objects. What [db.session.commit()] stores
      of the balances, which are written in place, and what is read back
      after it, is given apart ([after_commit] and the functions named
      [..._committed]).
    - [datetime.utcnow()] is an argument [now] of every operation that reads
      the clock.
    - A Python exception that leaves a function is [None]. *)

From Stdlib Require Import ZArith QArith String List Lia.
From stdpp Require Import base option list strings gmap fin_maps pretty.

Open Scope Z_scope.

(** ** Python helpers *)

(** Truthiness of an optional string ([if reason:]): [None] and the empty
    string are false. *)
Definition truthy_str (s : option string) : bool :=
  match s with
  | Some r => negb (String.eqb r "")
  | None => false
  end.

(** Truthiness of an optional integer ([if mission.giver_id:]): [None] and
    [0] are false. *)
Definition truthy_int (n : option Z) : bool :=
  match n with
  | Some k => negb (k =? 0)
  | None => false
  end.

(** [list.remove(x)]: drops the first occurrence of [x]. *)
Fixpoint remove_first (x : Z) (l : list Z) : list Z :=
  match l with
  | [] => []
  | y :: rest => if y =? x then rest else y :: remove_first x rest
  end.

(** [x in l] on a list of integers. *)
Definition mem_Z (x : Z) (l : list Z) : bool := existsb (Z.eqb x) l.

(** A value passed where the code calls [str] on it: the batch update hands
    [add_relationship] both string keys and integer ids. *)
Inductive pyid :=
| PStr (s : string)
| PInt (n : Z).

Definition str (v : pyid) : string :=
  match v with
  | PStr s => s
  | PInt n => pretty n
  end.

(** ** Ledger rows *)

(** Modelled from the spec: the [Transaction] model ([currency.py]) is not
    among the sources; its columns are the keyword arguments that [user.py]
    passes to its constructor, which are the fields of the spec's LedgerEntry.
    The spec gives the amount of an entry as an integer above 0; that bound
    is [row_accepted] below. *)
Record Transaction := mkTransaction {
  tx_user_id : string;
  transaction_type : string;
  from_currency : option string;
  to_currency : option string;
  amount : Z;
  description : string;
  story_node_id : option Z
}.

(** ** UserProgress *)

Module UserProgress.

Record history_entry := mkHistory {
  change : Z;
  reason : string;
  timestamp : string
}.

(** One value of the [encountered_characters] dictionary. The key
    ["relationship_history"] is absent until the first logged change. *)
Record char_data := mkCharData {
  name : string;
  relationship_level : Z;
  first_encounter : string;
  encounters_count : Z;
  last_encounter : string;
  relationship_history : option (list history_entry)
}.

(** The columns the progression methods read or write. *)
Record t := mk {
  user_id : string;
  level : Z;
  experience_points : Z;
  active_missions : list Z;
  completed_missions : list Z;
  failed_missions : list Z;
  encountered_characters : gmap string char_data;
  currency_balances : gmap string Z
}.

Definition with_level (v : Z) (self : t) : t :=
  mk (user_id self) v (experience_points self) (active_missions self)
     (completed_missions self) (failed_missions self)
     (encountered_characters self) (currency_balances self).

Definition with_experience_points (v : Z) (self : t) : t :=
  mk (user_id self) (level self) v (active_missions self)
     (completed_missions self) (failed_missions self)
     (encountered_characters self) (currency_balances self).

Definition with_active_missions (v : list Z) (self : t) : t :=
  mk (user_id self) (level self) (experience_points self) v
     (completed_missions self) (failed_missions self)
     (encountered_characters self) (currency_balances self).

Definition with_completed_missions (v : list Z) (self : t) : t :=
  mk (user_id self) (level self) (experience_points self)
     (active_missions self) v (failed_missions self)
     (encountered_characters self) (currency_balances self).

Definition with_failed_missions (v : list Z) (self : t) : t :=
  mk (user_id self) (level self) (experience_points self)
     (active_missions self) (completed_missions self) v
     (encountered_characters self) (currency_balances self).

Definition with_encountered_characters (v : gmap string char_data)
    (self : t) : t :=
  mk (user_id self) (level self) (experience_points self)
     (active_missions self) (completed_missions self) (failed_missions self)
     v (currency_balances self).

Definition with_currency_balances (v : gmap string Z) (self : t) : t :=
  mk (user_id self) (level self) (experience_points self)
     (active_missions self) (completed_missions self) (failed_missions self)
     (encountered_characters self) v.

(** [self.currency_balances.get(currency, 0)] *)
Definition balance (self : t) (currency : string) : Z :=
  default 0 (currency_balances self !! currency).

(** [self.currency_balances[currency] = v] *)
Definition set_balance (currency : string) (v : Z) (self : t) : t :=
  with_currency_balances (<[currency := v]> (currency_balances self)) self.

(** The [for] loop of [can_afford]: false at the first currency whose
    balance is below the required amount. *)
Fixpoint can_afford_loop (self : t) (reqs : list (string * Z)) : bool :=
  match reqs with
  | [] => true
  | (currency, amt) :: rest =>
      if balance self currency <? amt then false
      else can_afford_loop self rest
  end.

Definition can_afford (self : t) (currency_requirements : list (string * Z))
    : bool :=
  match currency_requirements with
  | [] => true
  | _ => can_afford_loop self currency_requirements
  end.

(** The row [spend_currency] adds for one debited currency. *)
Definition debit_row (self : t) (transaction_type description : string)
    (story_node_id : option Z) (currency : string) (amt : Z) : Transaction :=
  mkTransaction (user_id self) transaction_type (Some currency) None amt
                description story_node_id.

(** The [for] loop of [spend_currency]: each currency is debited and its
    row is added to the session. *)
Fixpoint spend_loop (self : t) (session : list Transaction)
    (reqs : list (string * Z)) (transaction_type description : string)
    (story_node_id : option Z) : t * list Transaction :=
  match reqs with
  | [] => (self, session)
  | (currency, amt) :: rest =>
      let self' := set_balance currency (balance self currency - amt) self in
      let transaction :=
        debit_row self transaction_type description story_node_id
                  currency amt in
      spend_loop self' (session ++ [transaction]) rest
                 transaction_type description story_node_id
  end.

Definition spend_currency (self : t) (session : list Transaction)
    (currency_requirements : list (string * Z))
    (transaction_type description : string) (story_node_id : option Z)
    : bool * t * list Transaction :=
  if negb (can_afford self currency_requirements) then (false, self, session)
  else
    let '(self', session') :=
      spend_loop self session currency_requirements transaction_type
                 description story_node_id in
    (true, self', session').

(** The row [add_currency] adds. *)
Definition credit_row (self : t) (transaction_type description : string)
    (currency : string) (amt : Z) : Transaction :=
  mkTransaction (user_id self) transaction_type None (Some currency) amt
                description None.

(** [add_currency], as the statements of its [try] leave the object and
    the session. What the commit stores and what the [except] branch does to
    a row that is refused is [add_currency_committed] below. *)
Definition add_currency (self : t) (session : list Transaction)
    (currency : string) (amt : Z) (transaction_type description : string)
    : bool * t * list Transaction :=
  let self' := set_balance currency (balance self currency + amt) self in
  let transaction :=
    credit_row self transaction_type description currency amt in
  (true, self', session ++ [transaction]).

(** [change_character_relationship]: fails on a character the user never
    met (an empty or missing dictionary has no key at all); otherwise adds
    [change_amount] to the level and logs the change when a reason is
    given. *)
Definition change_character_relationship (self : t) (character_id : Z)
    (change_amount : Z) (reason : option string) (now : string) : bool * t :=
  match encountered_characters self !! pretty character_id with
  | None => (false, self)
  | Some cd =>
      let level' := relationship_level cd + change_amount in
      let history' :=
        if truthy_str reason then
          Some (default [] (relationship_history cd)
                ++ [mkHistory change_amount (default "" reason) now])
        else relationship_history cd in
      let cd' :=
        mkCharData (name cd) level' (first_encounter cd)
                   (encounters_count cd) (last_encounter cd) history' in
      (true,
       with_encountered_characters
         (<[pretty character_id := cd']> (encountered_characters self)) self)
  end.

(** [1 + int(math.sqrt(xp / 100))]. [math.sqrt] raises [ValueError] on a
    negative argument. On the values of a 32-bit integer column the
    floating-point quotient and root are exact enough for the truncation to
    be the integer square root of the integer quotient. From about
    [7 * 10^15] on, the rounded root can be one more than the integer root,
    and past the range of a float the division raises; a theorem that states
    the value of the level, or that a call returns, carries the bound
    [xp < 2^31] of the column among its hypotheses. *)
Definition level_for (xp : Z) : option Z :=
  if xp <? 0 then None else Some (1 + Z.sqrt (xp / 100)).

Definition level_up_currency : string := "💶".

Definition level_up_description (new_level : Z) : string :=
  "Level up bonus for reaching level " +:+ pretty new_level.

(** [add_experience_points]: [None] is the [ValueError] of [math.sqrt],
    raised before anything is committed. *)
Definition add_experience_points (self : t) (session : list Transaction)
    (points : Z) (reason : option string)
    : option (bool * t * list Transaction) :=
  let self1 := with_experience_points (experience_points self + points) self in
  new_level ← level_for (experience_points self1);
  let level_up := bool_decide (level self1 < new_level) in
  if level_up then
    let self2 := with_level new_level self1 in
    let level_bonus := 50 * new_level in
    let '(_, self3, session') :=
      add_currency self2 session level_up_currency level_bonus "level_up"
                   (level_up_description new_level) in
    Some (level_up, self3, session')
  else Some (level_up, self1, session).


End UserProgress.

(** ** What a commit keeps of the balances *)

(** Modelled from the spec: the [Transaction] model is not among the
    sources, and the spec gives a ledger entry an amount above 0. A row with
    another amount is refused when it is built or committed, which raises
    inside the [try] of the method that adds it. *)
Definition row_accepted (tx : Transaction) : bool := 0 <? amount tx.

(** [currency_balances] is declared [db.Column(JSONB, default=...)]
    (user.py 36), without mutation tracking. At a flush SQLAlchemy writes a
    column only if the attribute was assigned;
    [self.currency_balances[currency] = ...] assigns an item of the
    dictionary the attribute holds, not the attribute. So the flush of
    [db.session.commit()] writes the assigned columns and the added rows and
    leaves the stored balances as they were; the commit then expires the
    object, and the next read of the balances gives the stored ones.
    [loaded] is the row as the method found it, [self] the object as the
    statements of the method left it. *)
Definition after_commit (loaded self : UserProgress.t) : UserProgress.t :=
  UserProgress.with_currency_balances
    (UserProgress.currency_balances loaded) self.

(** [add_currency] with its commit and its [except] branch, as the caller
    reads the player back: a refused row rolls the session back and gives
    [False]. *)
Definition add_currency_committed (self : UserProgress.t)
    (session : list Transaction) (currency : string) (amt : Z)
    (transaction_type description : string)
    : bool * UserProgress.t * list Transaction :=
  let '(_, self', session') :=
    UserProgress.add_currency self session currency amt transaction_type
      description in
  if row_accepted
       (UserProgress.credit_row self transaction_type description currency
          amt)
  then (true, after_commit self self', session')
  else (false, self, session).

(** [spend_currency] with its commit and its [except] branch: a refusal by
    [can_afford] returns before the [try]; a refused row rolls the session
    back and gives [False]. *)
Definition spend_currency_committed (self : UserProgress.t)
    (session : list Transaction) (currency_requirements : list (string * Z))
    (transaction_type description : string) (story_node_id : option Z)
    : bool * UserProgress.t * list Transaction :=
  if negb (UserProgress.can_afford self currency_requirements)
  then (false, self, session)
  else
    let '(self', session') :=
      UserProgress.spend_loop self session currency_requirements
        transaction_type description story_node_id in
    if forallb
         (λ p, row_accepted
                 (UserProgress.debit_row self transaction_type description
                    story_node_id p.1 p.2))
         currency_requirements
    then (true, after_commit self self', session')
    else (false, self, session).

(** [add_experience_points] with its commits: the experience points and the
    level are assigned and so stored; the bonus, of [50 * new_level] with
    [new_level] at least 1, is a row that is accepted. *)
Definition add_experience_points_committed (self : UserProgress.t)
    (session : list Transaction) (points : Z) (reason : option string)
    : option (bool * UserProgress.t * list Transaction) :=
  '(level_up, self', session') ←
    UserProgress.add_experience_points self session points reason;
  Some (level_up, after_commit self self', session').

(** ** Missions *)

Module Mission.

(** One entry of [progress_updates]; absent keys are [None]. *)
Record progress_update := mkUpdate {
  pu_progress : option Z;
  pu_status : string;
  pu_timestamp : string;
  pu_description : option string;
  pu_reason : option string
}.

(** Modelled from the spec: the [Mission] model is not among the sources;
    its columns are the keyword arguments of its constructor in
    [mission_generator.py] and the attributes that [complete_mission] and
    [fail_mission] read and write, which are the fields of the spec's
    Mission. [giver_id] and [target_id] are nullable. *)
Record t := mk {
  id : Z;
  user_id : string;
  title : string;
  giver_id : option Z;
  target_id : option Z;
  difficulty : string;
  reward_currency : string;
  reward_amount : Z;
  status : string;
  completed_at : option string;
  progress : Z;
  progress_updates : list progress_update
}.

Definition with_status (v : string) (m : t) : t :=
  mk (id m) (user_id m) (title m) (giver_id m) (target_id m) (difficulty m)
     (reward_currency m) (reward_amount m) v (completed_at m) (progress m)
     (progress_updates m).

Definition with_completed_at (v : option string) (m : t) : t :=
  mk (id m) (user_id m) (title m) (giver_id m) (target_id m) (difficulty m)
     (reward_currency m) (reward_amount m) (status m) v (progress m)
     (progress_updates m).

Definition with_progress (v : Z) (m : t) : t :=
  mk (id m) (user_id m) (title m) (giver_id m) (target_id m) (difficulty m)
     (reward_currency m) (reward_amount m) (status m) (completed_at m) v
     (progress_updates m).

Definition with_progress_updates (v : list progress_update) (m : t) : t :=
  mk (id m) (user_id m) (title m) (giver_id m) (target_id m) (difficulty m)
     (reward_currency m) (reward_amount m) (status m) (completed_at m)
     (progress m) v.

End Mission.

(** ** Difficulty inference ([create_mission_from_story]) *)

(** [BASE_REWARDS]: a lookup of any other key raises [KeyError]. *)
Definition BASE_REWARDS (currency : string) : option Z :=
  if String.eqb currency "💎" then Some 1
  else if String.eqb currency "💵" then Some 1500
  else if String.eqb currency "💷" then Some 1400
  else if String.eqb currency "💶" then Some 1450
  else if String.eqb currency "💴" then Some 150000
  else None.

(** [amount > base * factor], an integer against the product of an integer
    and a decimal literal; Python compares the two numbers exactly, and the
    products of the table's entries by 1.5 and 2.5 are exact. *)
Definition exceeds (amt base : Z) (factor : Q) : bool :=
  negb (Qle_bool (inject_Z amt) (inject_Z base * factor)).

(** The difficulty assigned from the extracted reward. The second test runs
    after the first and overwrites its result. [None] is the [KeyError] of
    the table lookup. *)
Definition infer_difficulty (reward_amount : Z) (reward_currency : string)
    : option string :=
  base ← BASE_REWARDS reward_currency;
  let difficulty := "easy" in
  let difficulty :=
    if exceeds reward_amount base 1.5%Q then "medium" else difficulty in
  let difficulty :=
    if exceeds reward_amount base 2.5%Q then "hard" else difficulty in
  Some difficulty.

(** ** The mission life cycle ([mission_generator.py]) *)

(** The rows the life cycle reads and writes: missions by primary key, user
    progress by its unique [user_id], and the [Transaction] rows of the
    session. *)
Record Db := mkDb {
  missions : gmap Z Mission.t;
  users : gmap string UserProgress.t;
  transactions : list Transaction
}.

(** [Mission.query.get(mission_id)] *)
Definition get_mission_by_id (db : Db) (mission_id : Z) : option Mission.t :=
  missions db !! mission_id.

(** [xp_rewards.get(mission.difficulty, 50)] *)
Definition xp_rewards (difficulty : string) : Z :=
  if String.eqb difficulty "easy" then 50
  else if String.eqb difficulty "medium" then 100
  else if String.eqb difficulty "hard" then 200
  else 50.

(** The assignments of [complete_mission] to the mission row. *)
Definition mark_completed (mission : Mission.t) (now : string) : Mission.t :=
  let m1 := Mission.with_status "completed" mission in
  let m2 := Mission.with_completed_at (Some now) m1 in
  let m3 := Mission.with_progress 100 m2 in
  Mission.with_progress_updates
    (Mission.progress_updates m3
     ++ [Mission.mkUpdate (Some 100) "completed" now
           (Some "Mission successfully completed!") None]) m3.

(** The body of [if user_progress:] in [complete_mission], up to and
    including the experience grant: the mission id moves between the lists,
    the reward is added to the balance dictionary in place, and the
    experience points are added. The balances are those of the object as the
    statements leave it; a commit stores none of the writes made in place
    (see [after_commit]). *)
Definition award_reward (mission : Mission.t) (user_progress : UserProgress.t)
    (session : list Transaction)
    : option (UserProgress.t * list Transaction) :=
  let active := UserProgress.active_missions user_progress in
  let active' :=
    if mem_Z (Mission.id mission) active
    then remove_first (Mission.id mission) active else active in
  let up1 := UserProgress.with_active_missions active' user_progress in
  let up2 :=
    UserProgress.with_completed_missions
      (UserProgress.completed_missions up1 ++ [Mission.id mission]) up1 in
  let balances := UserProgress.currency_balances up2 in
  let currency := Mission.reward_currency mission in
  let balances' :=
    match balances !! currency with
    | Some b => <[currency := b + Mission.reward_amount mission]> balances
    | None => <[currency := Mission.reward_amount mission]> balances
    end in
  let up3 := UserProgress.with_currency_balances balances' up2 in
  let xp_reward := xp_rewards (Mission.difficulty mission) in
  '(_, up4, session') ←
    UserProgress.add_experience_points up3 session xp_reward
      (Some ("Completed mission: " +:+ Mission.title mission));
  Some (up4, session').

(** The two relationship changes that close the body of [if user_progress:];
    the result of each call is dropped, as in the source. *)
Definition settle_relationships (mission : Mission.t)
    (user_progress : UserProgress.t) (now : string) : UserProgress.t :=
  let up1 :=
    if truthy_int (Mission.giver_id mission) then
      (UserProgress.change_character_relationship user_progress
         (default 0 (Mission.giver_id mission)) 2
         (Some ("Successfully completed mission: " +:+ Mission.title mission))
         now).2
    else user_progress in
  if truthy_int (Mission.target_id mission) then
    (UserProgress.change_character_relationship up1
       (default 0 (Mission.target_id mission)) (-3)
       (Some ("Targeted in mission: " +:+ Mission.title mission)) now).2
  else up1.

(** [complete_mission]. [None] is an exception leaving the function (the
    [ValueError] of the level formula). *)
Definition complete_mission (db : Db) (mission_id : Z) (user_id : string)
    (now : string) : option (bool * Db) :=
  match get_mission_by_id db mission_id with
  | None => Some (false, db)
  | Some mission =>
      if negb (String.eqb (Mission.status mission) "active")
      then Some (false, db)
      else
        let mission' := mark_completed mission now in
        let missions' := <[mission_id := mission']> (missions db) in
        match users db !! user_id with
        | None => Some (true, mkDb missions' (users db) (transactions db))
        | Some user_progress =>
            '(up, session') ←
              award_reward mission' user_progress (transactions db);
            let up' := settle_relationships mission' up now in
            Some (true,
                  mkDb missions' (<[user_id := up']> (users db)) session')
        end
  end.

(** The assignments of [fail_mission] to the mission row. *)
Definition mark_failed (mission : Mission.t) (reason : option string)
    (now : string) : Mission.t :=
  let m1 := Mission.with_status "failed" mission in
  let update :=
    Mission.mkUpdate None "failed" now None
      (if truthy_str reason then reason else None) in
  Mission.with_progress_updates (Mission.progress_updates m1 ++ [update]) m1.

(** The body of [if user_progress:] in [fail_mission]. *)
Definition record_failure (mission : Mission.t) (user_progress : UserProgress.t)
    (now : string) : UserProgress.t :=
  let active := UserProgress.active_missions user_progress in
  let active' :=
    if mem_Z (Mission.id mission) active
    then remove_first (Mission.id mission) active else active in
  let up1 := UserProgress.with_active_missions active' user_progress in
  let up2 :=
    UserProgress.with_failed_missions
      (UserProgress.failed_missions up1 ++ [Mission.id mission]) up1 in
  if truthy_int (Mission.giver_id mission) then
    (UserProgress.change_character_relationship up2
       (default 0 (Mission.giver_id mission)) (-1)
       (Some ("Failed mission: " +:+ Mission.title mission)) now).2
  else up2.

(** [fail_mission]; it has no step that raises. *)
Definition fail_mission (db : Db) (mission_id : Z) (user_id : string)
    (reason : option string) (now : string) : bool * Db :=
  match get_mission_by_id db mission_id with
  | None => (false, db)
  | Some mission =>
      if negb (String.eqb (Mission.status mission) "active") then (false, db)
      else
        let mission' := mark_failed mission reason now in
        let missions' := <[mission_id := mission']> (missions db) in
        match users db !! user_id with
        | None => (true, mkDb missions' (users db) (transactions db))
        | Some user_progress =>
            let up' := record_failure mission' user_progress now in
            (true,
             mkDb missions' (<[user_id := up']> (users db)) (transactions db))
        end
  end.

(** ** CharacterEvolution ([character.py]) *)

Module CharacterEvolution.

(** One value of the [relationship_network] dictionary. *)
Record edge := mkEdge {
  type : string;
  strength : Z;
  last_updated : string
}.

(** The columns the relationship update reads or writes. *)
Record t := mk {
  id : Z;
  user_id : string;
  character_id : Z;
  story_id : Z;
  relationship_network : gmap string edge
}.

(** [add_relationship]: the entry under [str(target_character_id)] is
    replaced as a whole (an empty or missing dictionary is the empty
    map). *)
Definition add_relationship (self : t) (target_character_id : pyid)
    (relationship_type : string) (strength : Z) (now : string) : t :=
  mk (id self) (user_id self) (character_id self) (story_id self)
     (<[str target_character_id := mkEdge relationship_type strength now]>
        (relationship_network self)).

End CharacterEvolution.

(** ** The batch relationship update ([character_evolution_service.py]) *)

(** One value of [relationship_changes]; absent keys are [None]. *)
Record change_data := mkChange {
  cd_type : option string;
  cd_amount : option Z;
  cd_inverse_type : option string;
  cd_inverse_amount : option Z
}.

(** The table of [CharacterEvolution] rows. A row is referred to by its
    position, so that two names for one row update the same row. *)
Abbreviation ce_table := (list CharacterEvolution.t).

(** [char_map = {str(ce.character_id): ce for ce in char_evolutions}] over
    the rows of [filter_by(user_id=..., story_id=...)], in table order: [i]
    is the position of the first row of [rows] in the table; a later row with
    the same character replaces an earlier one. *)
Fixpoint build_char_map (i : nat) (rows : list CharacterEvolution.t)
    (user_id : string) (story_id : Z) (acc : gmap string nat)
    : gmap string nat :=
  match rows with
  | [] => acc
  | ce :: rest =>
      let acc' :=
        if String.eqb (CharacterEvolution.user_id ce) user_id
           && (CharacterEvolution.story_id ce =? story_id)
        then <[pretty (CharacterEvolution.character_id ce) := i]> acc
        else acc in
      build_char_map (S i) rest user_id story_id acc'
  end.

Definition char_map_of (table : ce_table) (user_id : string) (story_id : Z)
    : gmap string nat :=
  build_char_map 0 table user_id story_id ∅.

(** [_update_relationship(from_ce, to_id, rel_type, strength)] on the row at
    position [from_ce]. *)
Definition _update_relationship (table : ce_table) (from_ce : nat)
    (to_id : pyid) (rel_type : string) (strength : Z) (now : string)
    : ce_table :=
  alter (λ ce, CharacterEvolution.add_relationship ce to_id rel_type strength now)
        from_ce table.

(** The body of the [for] loop over [relationship_changes.items()]. *)
Definition update_entry (char_map : gmap string nat) (protagonist_id : Z)
    (now : string) (table : ce_table) (target_id : string)
    (change_data : change_data) : ce_table :=
  match char_map !! target_id with
  | None => table
  | Some target_ce =>
      let rel_type := default "neutral" (cd_type change_data) in
      let strength := default 0 (cd_amount change_data) in
      let table1 :=
        match char_map !! pretty protagonist_id with
        | Some protag_ce =>
            _update_relationship table protag_ce (PStr target_id) rel_type
                                 strength now
        | None => table
        end in
      let inverse_strength :=
        default strength (cd_inverse_amount change_data) in
      let inverse_type := default rel_type (cd_inverse_type change_data) in
      _update_relationship table1 target_ce (PInt protagonist_id)
                           inverse_type inverse_strength now
  end.

Fixpoint update_loop (char_map : gmap string nat) (protagonist_id : Z)
    (now : string) (table : ce_table)
    (changes : list (string * change_data)) : ce_table :=
  match changes with
  | [] => table
  | (target_id, cd) :: rest =>
      update_loop char_map protagonist_id now
        (update_entry char_map protagonist_id now table target_id cd) rest
  end.

(** [update_character_relationships]: no step of the loop raises, so the
    call commits and returns [True]. *)
Definition update_character_relationships (table : ce_table)
    (user_id : string) (story_id : Z) (protagonist_id : Z)
    (relationship_changes : list (string * change_data)) (now : string)
    : bool * ce_table :=
  let char_map := char_map_of table user_id story_id in
  (true, update_loop char_map protagonist_id now table relationship_changes).


(** ** Concrete inputs used by the examples below *)

(** A level-1 player holding 1000 dollars who has met nobody. *)
Definition player0 : UserProgress.t :=
  UserProgress.mk "u1" 1 0 [1] [] [] ∅ {[ "💵" := 1000 ]}.

(** An active mission paying 1500 dollars, given by character 7, who is not
    among the characters [player0] has met. *)
Definition mission0 : Mission.t :=
  Mission.mk 1 "u1" "Steal the plans" (Some 7) None "medium" "💵" 1500
             "active" None 0 [].

Definition db0 : Db := mkDb {[ 1 := mission0 ]} {[ "u1" := player0 ]} [].

(** A player holding 500 dollars and 40 diamonds. *)
Definition player_spender : UserProgress.t :=
  UserProgress.mk "u2" 1 0 [] [] [] ∅ {[ "💵" := 500; "💎" := 40 ]}.

(** A level-2 player with 200 experience points and 100 euros. *)
Definition player_veteran : UserProgress.t :=
  UserProgress.mk "u3" 2 200 [] [] [] ∅ {[ "💶" := 100 ]}.

(** An active easy mission paying 1500 dollars, with neither giver nor
    target. *)
Definition mission_plain : Mission.t :=
  Mission.mk 2 "u1" "Deliver the letter" None None "easy" "💵" 1500
             "active" None 0 [].

Definition db_plain : Db :=
  mkDb {[ 2 := mission_plain ]} {[ "u1" := player0 ]} [].

(** The clock reading used in the examples. *)
Definition noon : string := "2024-01-01T12:00:00".


(** The same story with a row for character 2 only. *)
Definition table_lonely : ce_table := [CharacterEvolution.mk 11 "u1" 2 1 ∅].

(** Character 2 becomes an ally at strength 5, and sees the protagonist as
    a rival at strength -2; character 9 has no row. *)
Definition changes0 : list (string * change_data) :=
  [("2", mkChange (Some "ally") (Some 5) (Some "rival") (Some (-2)));
   ("9", mkChange (Some "enemy") (Some (-4)) None None)].

(** A mission that was completed earlier. *)
Definition mission_done : Mission.t :=
  Mission.mk 3 "u1" "Old errand" (Some 7) None "easy" "💵" 1500
             "completed" (Some "2023-12-31T09:00:00") 100 [].

Definition db_done : Db :=
  mkDb {[ 3 := mission_done ]} {[ "u1" := player0 ]} [].

(** The scenario of the specification: a player with 1000 dollars who has
    met the giver (character 7) and the target (character 8) of a medium
    mission paying 1500 dollars. *)
Definition player_social : UserProgress.t :=
  UserProgress.mk "u4" 1 0 [4] [] []
    {[ "7" := UserProgress.mkCharData "Mara" 1 "2024-01-01T08:00:00" 1
                "2024-01-01T08:00:00" None;
       "8" := UserProgress.mkCharData "Viktor" 0 "2024-01-01T09:00:00" 1
                "2024-01-01T09:00:00" None ]}
    {[ "💵" := 1000 ]}.

Definition mission_social : Mission.t :=
  Mission.mk 4 "u4" "Expose Viktor" (Some 7) (Some 8) "medium" "💵" 1500
             "active" None 0 [].

Definition db_social : Db :=
  mkDb {[ 4 := mission_social ]} {[ "u4" := player_social ]} [].

(** ** Statements of the specification that the code is checked against *)

(** The specification's contract of [addExperience]: negative points are
    refused, that is, the call does not return and the player stays as it
    was. *)
Definition experience_rejects_negative (self : UserProgress.t)
    (session : list Transaction) (points : Z) (reason : option string)
    : Prop :=
  points < 0 →
  UserProgress.add_experience_points self session points reason = None.




(** The relationship level stored for the character under key [k], if the
    player has met it. *)
Definition rel_level (self : UserProgress.t) (k : string) : option Z :=
  UserProgress.relationship_level
    <$> UserProgress.encountered_characters self !! k.

(** The row at position [j] belongs to the queried user and story and is
    the row of the character printed as [k]. *)
Definition row_matches (table : ce_table) (user_id : string) (story_id : Z)
    (k : string) (j : nat) : Prop :=
  ∃ ce,
    table !! j = Some ce
    ∧ CharacterEvolution.user_id ce = user_id
    ∧ CharacterEvolution.story_id ce = story_id
    ∧ pretty (CharacterEvolution.character_id ce) = k.


(** ** Further code of the repository *)

(** *** Sequences of calls on one player *)



(** *** Mission queries ([mission_generator.py]) *)

(** [get_user_active_missions]: the rows of
    [filter_by(user_id=..., status='active')]. The query has no order, so
    the result is the set of rows, by primary key. *)
Definition get_user_active_missions (db : Db) (user_id : string)
    : gmap Z Mission.t :=
  filter (λ kv, Mission.user_id kv.2 = user_id
                ∧ Mission.status kv.2 = "active") (missions db).

(** The order of the three difficulties. *)
Definition difficulty_rank (difficulty : string) : nat :=
  if String.eqb difficulty "hard" then 2
  else if String.eqb difficulty "medium" then 1
  else 0.

(** *** Traits, role and plot of a character ([character.py]) *)

Module CharacterSheet.

(** One entry of [evolution_log], by its ["type"]. *)
Inductive event :=
| trait_added (trait : string) (reason : option string) (timestamp : string)
| role_changed (old_role : option string) (new_role : string)
               (reason : option string) (timestamp : string).

Record contribution := mkContribution {
  plot_point : string;
  importance : Z;
  contributed_at : string
}.

(** The columns of [CharacterEvolution] that [add_trait], [update_role] and
    [add_plot_contribution] read or write; an empty or missing list is the
    empty list. *)
Record t := mk {
  role : option string;
  evolved_traits : list string;
  plot_contributions : list contribution;
  evolution_log : list event
}.










End CharacterSheet.

(** *** Field extraction ([story_maker.py]) *)

(** [extract_field] on a dictionary whose values are strings: [None] and the
    empty dictionary give the default; an absent key and an empty value are
    both false for [or]. *)
Definition extract_field (data : option (gmap string string))
    (field : string) (alt_field : option string) (default_value : string)
    : string :=
  match data with
  | None => default_value
  | Some d =>
      if bool_decide (d = ∅) then default_value
      else
        let first := d !! field in
        if truthy_str first then default "" first
        else
          let second := alt_field ≫= λ k, d !! k in
          if truthy_str second then default "" second
          else default_value
  end.

Definition extract_character_style (character_data : option (gmap string string))
    : string :=
  extract_field character_data "style" (Some "visual_description") "".

Definition extract_character_name (character_data : option (gmap string string))
    : string :=
  extract_field character_data "name" (Some "character_name")
                "Unnamed Character".

Definition extract_character_role (character_data : option (gmap string string))
    : string :=
  extract_field character_data "role" (Some "character_role") "neutral".

(** *** The completion route of the server ([server/app.py]) *)

Module App.

(** A mission of the in-memory store: a dictionary with these keys; the two
    reward keys are read with a default. *)
Record mission := mkMission {
  id : Z;
  title : string;
  description : string;
  status : string;
  reward_currency : option string;
  reward_amount : option Z;
  progress : Z;
  story_id : Z
}.

#[global] Instance mission_eq_dec : EqDecision mission.
Proof. solve_decision. Defined.

(** The keys of a user's dictionary that the route reads or writes. *)
Record user_data := mkUser {
  level : Z;
  experience_points : Z;
  currency_balances : gmap string Z;
  active_missions : list mission;
  completed_missions : list mission
}.

(** What the route answers: an error with its status code, the success
    body, or an exception that leaves the handler. *)
Inductive response :=
| Error (code : Z) (message : string)
| Success (user_progress : user_data) (level_up : bool)
| Unhandled.

(** The search loop: the position and the value of the first mission with
    the id; [i] is the position of the head of [l]. *)
Fixpoint find_mission (mission_id : Z) (l : list mission) (i : nat)
    : option (nat * mission) :=
  match l with
  | [] => None
  | m :: rest =>
      if id m =? mission_id then Some (i, m)
      else find_mission mission_id rest (S i)
  end.

(** [list.remove(x)]: drops the first element equal to [x]; [None] is the
    [ValueError] of a list without such an element. *)
Fixpoint list_remove (x : mission) (l : list mission)
    : option (list mission) :=
  match l with
  | [] => None
  | y :: rest =>
      if decide (y = x) then Some rest
      else rest' ← list_remove x rest; Some (y :: rest')
  end.

(** [complete_mission_route]. The mission found is an element of the active
    list, so the two assignments to it are seen through the list before
    [remove] compares. The store is changed in place: what was assigned
    before an exception stays. *)
Definition complete_mission_route (users : gmap string user_data)
    (user_id : option string) (mission_id : Z)
    : response * gmap string user_data :=
  let user_id := default "default_user" user_id in
  match users !! user_id with
  | None => (Error 404 "User not found", users)
  | Some user_data =>
      match find_mission mission_id (active_missions user_data) 0 with
      | None => (Error 404 "Mission not found", users)
      | Some (i, m) =>
          let mission :=
            mkMission (id m) (title m) (description m) "completed"
                      (reward_currency m) (reward_amount m) 100 (story_id m) in
          let active1 := <[i := mission]> (active_missions user_data) in
          match list_remove mission active1 with
          | None =>
              (Unhandled,
               <[user_id := mkUser (level user_data)
                              (experience_points user_data)
                              (currency_balances user_data) active1
                              (completed_missions user_data)]> users)
          | Some active2 =>
              let completed := completed_missions user_data ++ [mission] in
              let currency := default "💵" (reward_currency mission) in
              let amt := default 1000 (reward_amount mission) in
              let balances :=
                <[currency :=
                    default 0 (currency_balances user_data !! currency) + amt]>
                  (currency_balances user_data) in
              let xp_reward := 100 in
              let xp := experience_points user_data + xp_reward in
              match UserProgress.level_for xp with
              | None =>
                  (Unhandled,
                   <[user_id := mkUser (level user_data) xp balances active2
                                       completed]> users)
              | Some new_level =>
                  let level_up := bool_decide (level user_data < new_level) in
                  let level' :=
                    if level_up then new_level else level user_data in
                  let user_data' :=
                    mkUser level' xp balances active2 completed in
                  (Success user_data' level_up,
                   <[user_id := user_data']> users)
              end
          end
      end
  end.

End App.

(** The columns of a player that a reward would move. *)
Definition economy (self : UserProgress.t)
    : gmap string Z * Z * Z * list Z :=
  (UserProgress.currency_balances self, UserProgress.experience_points self,
   UserProgress.level self, UserProgress.completed_missions self).

(** Two active missions of user "u1" and one of user "u5", with a player
    row for each user; the lists of active missions have no repetition. *)
Definition mission_second : Mission.t :=
  Mission.mk 5 "u1" "Tail the courier" None None "hard" "💷" 4000
             "active" None 0 [].

Definition mission_other : Mission.t :=
  Mission.mk 6 "u5" "Guard the vault" None None "easy" "💵" 900
             "active" None 0 [].

Definition player_busy : UserProgress.t :=
  UserProgress.mk "u1" 1 0 [1; 5] [] [] ∅ {[ "💵" := 1000 ]}.

Definition player_far : UserProgress.t :=
  UserProgress.mk "u5" 1 0 [6] [] [] ∅ {[ "💵" := 10 ]}.

Definition db_busy : Db :=
  mkDb {[ 1 := mission0; 5 := mission_second; 6 := mission_other ]}
       {[ "u1" := player_busy; "u5" := player_far ]} [].

(** A player whose experience points are negative. *)
Definition player_indebted : UserProgress.t :=
  UserProgress.mk "u6" 1 (-500) [2] [] [] ∅ {[ "💵" := 0 ]}.

Definition db_indebted : Db :=
  mkDb {[ 2 := mission_plain ]} {[ "u6" := player_indebted ]} [].

(** The columns of an evolution row that say whose row it is. *)
Definition identity_columns (ce : CharacterEvolution.t) : Z * string * Z * Z :=
  (CharacterEvolution.id ce, CharacterEvolution.user_id ce,
   CharacterEvolution.character_id ce, CharacterEvolution.story_id ce).

(** Rows of two users in story 1, and of user "u1" in story 2. *)
Definition table_mixed : ce_table :=
  [CharacterEvolution.mk 10 "u1" 1 1 ∅;
   CharacterEvolution.mk 11 "u1" 2 1 ∅;
   CharacterEvolution.mk 12 "u5" 2 1
     {[ "1" := CharacterEvolution.mkEdge "friend" 3 "2023-12-01T00:00:00" ]};
   CharacterEvolution.mk 13 "u1" 2 2 ∅].

(** The in-memory store of the server with one user who has two active
    missions, the second without reward keys. *)
Definition app_mission_a : App.mission :=
  App.mkMission 1 "Steal the plans" "" "active" (Some "💷") (Some 700) 0 1.

Definition app_mission_b : App.mission :=
  App.mkMission 2 "Tail the courier" "" "active" None None 40 1.

Definition app_users : gmap string App.user_data :=
  {[ "default_user" :=
       App.mkUser 1 0 {[ "💵" := 5000; "💷" := 5000 ]}
                  [app_mission_a; app_mission_b] [] ]}.

(** * The ledger: [can_afford], [spend_currency], [add_currency] *)

Section Ledger.
Import UserProgress.

Lemma balance_set_balance_eq self c v : balance (set_balance c v self) c = v.
Proof. unfold balance, set_balance; simpl. by rewrite lookup_insert_eq. Qed.

Lemma balance_set_balance_ne self c c' v :
  c ≠ c' → balance (set_balance c v self) c' = balance self c'.
Proof.
  intros Hne. unfold balance, set_balance; simpl.
  by rewrite lookup_insert_ne.
Qed.

(** The loop of [can_afford] answers no exactly when some required
    currency is short. *)
Lemma can_afford_loop_false self reqs :
  can_afford_loop self reqs = false
  ↔ ∃ c a, (c, a) ∈ reqs ∧ balance self c < a.
Proof.
  induction reqs as [|[c a] rest IH]; simpl.
  - split; [discriminate|]. intros (c & a & Hin & _). by inversion Hin.
  - destruct (Z.ltb_spec (balance self c) a) as [Hlt|Hge].
    + split; [|done]. intros _. exists c, a. split; [left|done].
    + rewrite IH. split.
      * intros (c' & a' & Hin & Hlt). exists c', a'. split; [by right|done].
      * intros (c' & a' & Hin & Hlt).
        apply elem_of_cons in Hin as [Heq|Hin].
        -- inversion Heq; subst. lia.
        -- by exists c', a'.
Qed.

Lemma can_afford_false self reqs :
  can_afford self reqs = false ↔ ∃ c a, (c, a) ∈ reqs ∧ balance self c < a.
Proof.
  destruct reqs as [|p rest]; [|apply can_afford_loop_false].
  simpl. split; [discriminate|]. intros (c & a & Hin & _). by inversion Hin.
Qed.

Section SpendLoop.
Variables (transaction_type description : string).
Variable story_node_id : option Z.

Local Abbreviation loop self session reqs :=
  (spend_loop self session reqs transaction_type description
              story_node_id).
Local Abbreviation row self :=
  (λ p : string * Z,
     debit_row self transaction_type description story_node_id p.1 p.2).

(** The session grows by one row per requirement, in order. *)
Lemma spend_loop_session self session reqs :
  (loop self session reqs).2 = session ++ (row self <$> reqs).
Proof.
  revert self session.
  induction reqs as [|[c a] rest IH]; intros self session; simpl.
  - by rewrite app_nil_r.
  - rewrite IH. by rewrite <- app_assoc.
Qed.

(** A currency that is not required keeps its entry. *)
Lemma spend_loop_other self session reqs c :
  c ∉ reqs.*1 →
  currency_balances (loop self session reqs).1 !! c
  = currency_balances self !! c.
Proof.
  revert self session.
  induction reqs as [|[c' a'] rest IH]; intros self session Hnin; simpl.
  - done.
  - simpl in Hnin. apply not_elem_of_cons in Hnin as [Hne Hnin].
    rewrite IH by done. simpl. by rewrite lookup_insert_ne.
Qed.

(** A required currency ends at its old balance less the requirement. *)
Lemma spend_loop_debited self session reqs c a :
  NoDup reqs.*1 → (c, a) ∈ reqs →
  currency_balances (loop self session reqs).1 !! c
  = Some (balance self c - a).
Proof.
  revert self session.
  induction reqs as [|[c' a'] rest IH]; intros self session Hnd Hin; simpl.
  - by inversion Hin.
  - simpl in Hnd. apply NoDup_cons in Hnd as [Hfresh Hnd].
    apply elem_of_cons in Hin as [Heq|Hin].
    + inversion Heq; subst c' a'.
      rewrite spend_loop_other by done. simpl.
      by rewrite lookup_insert_eq.
    + assert (c ≠ c') as Hne.
      { intros ->. apply Hfresh.
        apply list_elem_of_fmap. by exists (c', a). }
      rewrite IH by done. by rewrite balance_set_balance_ne.
Qed.

(** Only the balances change. *)
Lemma spend_loop_columns self session reqs :
  let self' := (loop self session reqs).1 in
  user_id self' = user_id self ∧ level self' = level self
  ∧ experience_points self' = experience_points self
  ∧ encountered_characters self' = encountered_characters self.
Proof.
  revert self session.
  induction reqs as [|[c a] rest IH]; intros self session; simpl; [done|].
  match goal with
  | |- context [spend_loop ?s' ?l' rest _ _ _] => apply (IH s' l')
  end.
Qed.
End SpendLoop.
End Ledger.

(** * Spending *)

(** C3, evaluated where the code departs from it. A payment of 300 dollars
    and 40 diamonds by a player holding 500 and 40 is accepted and leaves one
    row per currency in the ledger, each with its currency and amount. The
    debits are written into the balance dictionary in place, which the
    commit does not store: read back, the player holds 500 dollars and 40
    diamonds as before. *)
Theorem spend_currency_debit_is_lost :
  spend_currency_committed player_spender []
    [("💵", 300); ("💎", 40)] "choice_cost" "Bribe the guard" (Some 12)
  = (true, player_spender,
     [mkTransaction "u2" "choice_cost" (Some "💵") None 300
        "Bribe the guard" (Some 12);
      mkTransaction "u2" "choice_cost" (Some "💎") None 40
        "Bribe the guard" (Some 12)])
  ∧ UserProgress.balance player_spender "💵" = 500
  ∧ UserProgress.balance player_spender "💎" = 40.
Proof. split; [vm_compute; reflexivity|by vm_compute]. Qed.

(** The scenario of the specification: 600 dollars against a balance of 500
    is refused, with the balance and the ledger untouched. *)
Example spend_more_than_held :
  UserProgress.spend_currency player_spender [] [("💵", 600)] "choice_cost"
    "Buy the map" None
  = (false, player_spender, []).
Proof. reflexivity. Qed.

(** * Crediting *)

(** C4, evaluated where the code departs from it. A credit of 50 dollars to
    a player holding 1000 returns [True] and leaves its row in the ledger.
    The balance is written in place, which the commit does not store: read
    back, the player holds 1000 dollars as before. *)
Theorem add_currency_credit_is_lost :
  add_currency_committed player0 [] "💵" 50 "gift" "Tip"
  = (true, player0, [mkTransaction "u1" "gift" None (Some "💵") 50 "Tip" None])
  ∧ UserProgress.balance player0 "💵" = 1000.
Proof. split; [vm_compute; reflexivity|by vm_compute]. Qed.

(** An amount that is not above 0 makes a row that is refused: the session
    is rolled back and the call gives [False]. *)
Example add_currency_nonpositive_run :
  add_currency_committed player0 [] "💵" (-5) "refund" "Correction"
  = (false, player0, []).
Proof. reflexivity. Qed.

(** * Experience and levels *)

Section Progression.
Import UserProgress.

Lemma level_for_nonneg xp :
  0 ≤ xp → level_for xp = Some (1 + Z.sqrt (xp / 100)).
Proof.
  intros Hxp. unfold level_for.
  by destruct (Z.ltb_spec xp 0) as [Hneg|_]; [lia|].
Qed.

Lemma level_for_negative xp : xp < 0 → level_for xp = None.
Proof.
  intros Hxp. unfold level_for.
  by destruct (Z.ltb_spec xp 0) as [_|Hge]; [|lia].
Qed.

(** The level formula is monotone in the experience points. *)
Lemma level_formula_mono xp xp' :
  xp ≤ xp' → 1 + Z.sqrt (xp / 100) ≤ 1 + Z.sqrt (xp' / 100).
Proof.
  intros Hle. apply Z.add_le_mono_l, Z.sqrt_le_mono.
  apply Z.div_le_mono; lia.
Qed.

(** What a call that returns does, whatever the sign of the points: the
    points are added; the level becomes the formula's value if that is
    higher and stays otherwise; only a higher level pays a bonus. *)
Lemma add_experience_points_returns self session points reason :
  0 ≤ experience_points self + points →
  let xp' := experience_points self + points in
  let new_level := 1 + Z.sqrt (xp' / 100) in
  add_experience_points self session points reason
  = if bool_decide (level self < new_level) then
      Some (true,
            set_balance level_up_currency
              (balance self level_up_currency + 50 * new_level)
              (with_level new_level (with_experience_points xp' self)),
            session
            ++ [mkTransaction (user_id self) "level_up" None
                  (Some level_up_currency) (50 * new_level)
                  (level_up_description new_level) None])
    else Some (false, with_experience_points xp' self, session).
Proof.
  intros Hxp xp' new_level. unfold add_experience_points. simpl.
  rewrite level_for_nonneg by done. simpl.
  fold xp'. fold new_level. by case_bool_decide.
Qed.
End Progression.

(** C5, as the specification states it, fails: taking 100 points from a
    player who has 200 is accepted. *)
Lemma add_experience_points_accepts_negative :
  ¬ experience_rejects_negative player_veteran [] (-100) None.
Proof.
  unfold experience_rejects_negative. intros Hclaim.
  specialize (Hclaim ltac:(lia)). vm_compute in Hclaim. discriminate Hclaim.
Qed.

Example add_experience_points_negative_run :
  ∃ self',
    UserProgress.add_experience_points player_veteran [] (-100) None
    = Some (false, self', [])
    ∧ UserProgress.experience_points player_veteran = 200
    ∧ UserProgress.experience_points self' = 100.
Proof. eexists. split; [reflexivity|]. by vm_compute. Qed.

(** C5, amended. [add_experience_points] checks nothing about the points.
    For a player whose experience points are in the range of their column
    (below 2^31), a call with negative points returns normally as long as
    the sum stays non-negative: the experience points drop to the sum and
    the level does not go down; for a player whose level agrees with the
    formula the call returns [False] and the level, the balances and the
    ledger stay as they were. When the sum is negative the call does not
    return: the square root of the level formula raises. *)
Theorem add_experience_points_negative (self : UserProgress.t)
    (session : list Transaction) (points : Z) (reason : option string) :
  points < 0 →
  UserProgress.experience_points self < 2147483648 →
  (0 ≤ UserProgress.experience_points self + points →
   ∃ b self' session',
     UserProgress.add_experience_points self session points reason
     = Some (b, self', session')
     ∧ UserProgress.experience_points self'
       = UserProgress.experience_points self + points
     ∧ UserProgress.level self ≤ UserProgress.level self'
     ∧ (UserProgress.level self
        = 1 + Z.sqrt (UserProgress.experience_points self / 100) →
        b = false
        ∧ UserProgress.level self' = UserProgress.level self
        ∧ UserProgress.currency_balances self'
          = UserProgress.currency_balances self
        ∧ session' = session))
  ∧ (UserProgress.experience_points self + points < 0 →
     UserProgress.add_experience_points self session points reason = None).
Proof.
  intros Hneg Hrange. split.
  - intros Hsum.
    rewrite add_experience_points_returns by done.
    case_bool_decide as Hup.
    + do 3 eexists. split; [reflexivity|]. simpl.
      split; [done|]. split; [lia|].
      intros Hcons. exfalso.
      pose proof (level_formula_mono
                    (UserProgress.experience_points self + points)
                    (UserProgress.experience_points self) ltac:(lia)).
      lia.
    + do 3 eexists. split; [reflexivity|]. simpl.
      split; [done|]. split; [lia|]. done.
  - intros Hsum. unfold UserProgress.add_experience_points. simpl.
    by rewrite level_for_negative.
Qed.

Lemma add_experience_points_negative_witness :
  -100 < 0
  ∧ UserProgress.experience_points player_veteran < 2147483648
  ∧ ∃ b self' session',
      UserProgress.add_experience_points player_veteran [] (-100) None
      = Some (b, self', session')
      ∧ UserProgress.experience_points self' = 100
      ∧ UserProgress.level self' = 2.
Proof.
  assert (UserProgress.experience_points player_veteran < 2147483648)
    as Hrange by (by vm_compute).
  split; [lia|]. split; [exact Hrange|].
  destruct (add_experience_points_negative player_veteran [] (-100) None
              ltac:(lia) Hrange) as [Hret _].
  destruct Hret as (b & self' & session' & Hrun & Hxp & _ & Hcons);
    [vm_compute; discriminate|].
  exists b, self', session'. split; [exact Hrun|]. split; [exact Hxp|].
  destruct Hcons as (_ & Hlevel & _); [reflexivity|]. exact Hlevel.
Defined.

(** C6, evaluated where the code departs from it. 400 points take a new
    player from level 1 to level 3 in one call, which returns [True] and
    leaves one [level_up] row of 150 euros in the ledger. The bonus is
    written into the balance dictionary in place, which the commit does not
    store: read back, the player holds no more euros than before. *)
Theorem level_bonus_credit_is_lost :
  ∃ self',
    add_experience_points_committed player0 [] 400 None
    = Some (true, self',
            [mkTransaction "u1" "level_up" None (Some "💶") 150
               "Level up bonus for reaching level 3" None])
    ∧ UserProgress.level self' = 3
    ∧ UserProgress.experience_points self' = 400
    ∧ UserProgress.balance player0 "💶" = 0
    ∧ UserProgress.balance self' "💶" = 0.
Proof. eexists. split; [vm_compute; reflexivity|]. by vm_compute. Qed.

(** * Difficulty inference *)

(** Every base reward of the table is positive. *)
Lemma BASE_REWARDS_positive currency base :
  BASE_REWARDS currency = Some base → 0 < base.
Proof.
  unfold BASE_REWARDS. intros Hbase.
  repeat match type of Hbase with
         | (if ?b then _ else _) = _ => destruct b
         end; inversion Hbase; lia.
Qed.

(** The boolean test of the source is the strict comparison of rationals. *)
Lemma exceeds_spec amt base factor :
  exceeds amt base factor = true ↔ (inject_Z base * factor < inject_Z amt)%Q.
Proof.
  unfold exceeds. rewrite negb_true_iff.
  destruct (Qle_bool (inject_Z amt) (inject_Z base * factor)) eqn:Hle.
  - apply Qle_bool_iff in Hle. split; [discriminate|].
    intros Hlt. by apply Qlt_not_le in Hlt.
  - split; [|done]. intros _. apply Qnot_le_lt. intros Hle'.
    apply Qle_bool_iff in Hle'. congruence.
Qed.

(** C7. The inferred difficulty is a function of the reward amount and the
    base reward of its currency: [hard] when the amount is above 2.5 times
    the base, [medium] when it is above 1.5 times the base but not above 2.5
    times, [easy] otherwise; an amount above the hard threshold is also above
    the medium one, and the later test decides. *)
Theorem infer_difficulty_thresholds (amt : Z) (currency : string) (base : Z) :
  BASE_REWARDS currency = Some base →
  ((inject_Z base * 2.5 < inject_Z amt)%Q →
   infer_difficulty amt currency = Some "hard")
  ∧ ((inject_Z base * 1.5 < inject_Z amt)%Q →
     ¬ (inject_Z base * 2.5 < inject_Z amt)%Q →
     infer_difficulty amt currency = Some "medium")
  ∧ (¬ (inject_Z base * 1.5 < inject_Z amt)%Q →
     infer_difficulty amt currency = Some "easy")
  ∧ ((inject_Z base * 2.5 < inject_Z amt)%Q →
     (inject_Z base * 1.5 < inject_Z amt)%Q).
Proof.
  intros Hbase. pose proof (BASE_REWARDS_positive _ _ Hbase) as Hpos.
  assert ((inject_Z base * 2.5 < inject_Z amt)%Q →
          (inject_Z base * 1.5 < inject_Z amt)%Q) as Hover.
  { unfold Qlt. simpl. lia. }
  unfold infer_difficulty. rewrite Hbase. simpl.
  repeat split.
  - intros Hhard. apply exceeds_spec in Hhard. by rewrite Hhard.
  - intros Hmed Hnhard. apply exceeds_spec in Hmed. rewrite Hmed.
    destruct (exceeds amt base 2.5) eqn:Hh; [|done].
    apply exceeds_spec in Hh. contradiction.
  - intros Hnmed.
    destruct (exceeds amt base 1.5) eqn:Hm.
    { apply exceeds_spec in Hm. contradiction. }
    destruct (exceeds amt base 2.5) eqn:Hh; [|done].
    apply exceeds_spec in Hh. apply Hover in Hh. contradiction.
  - exact Hover.
Qed.

(** 4000 dollars against a base of 1500: above 3750, hence hard. *)
Lemma infer_difficulty_thresholds_witness :
  BASE_REWARDS "💵" = Some 1500
  ∧ infer_difficulty 4000 "💵" = Some "hard"
  ∧ (inject_Z 1500 * 1.5 < inject_Z 4000)%Q.
Proof.
  split; [reflexivity|].
  destruct (infer_difficulty_thresholds 4000 "💵" 1500 eq_refl)
    as (Hhard & _ & _ & Hover).
  assert (inject_Z 1500 * 2.5 < inject_Z 4000)%Q as Hlt by reflexivity.
  split; [exact (Hhard Hlt)|exact (Hover Hlt)].
Defined.

(** The scenario of the specification: 2,500 yen against a base of 150000
    is not above either threshold. *)
Example infer_difficulty_yen : infer_difficulty 2500 "💴" = Some "easy".
Proof. reflexivity. Qed.

Example infer_difficulty_medium : infer_difficulty 2251 "💵" = Some "medium".
Proof. reflexivity. Qed.

Example infer_difficulty_boundary : infer_difficulty 2250 "💵" = Some "easy".
Proof. reflexivity. Qed.

(** * The mission life cycle *)

Section LifeCycle.

Lemma mark_completed_status mission now :
  Mission.status (mark_completed mission now) = "completed"
  ∧ Mission.progress (mark_completed mission now) = 100.
Proof. done. Qed.

Lemma mark_failed_status mission reason now :
  Mission.status (mark_failed mission reason now) = "failed".
Proof. done. Qed.

(** The guard at the head of [complete_mission]. *)
Lemma complete_mission_guard db mission_id user_id now mission :
  get_mission_by_id db mission_id = Some mission →
  Mission.status mission ≠ "active" →
  complete_mission db mission_id user_id now = Some (false, db).
Proof.
  intros Hget Hstatus. unfold complete_mission. rewrite Hget.
  destruct (String.eqb_spec (Mission.status mission) "active"); done.
Qed.

(** The guard at the head of [fail_mission]. *)
Lemma fail_mission_guard db mission_id user_id reason now mission :
  get_mission_by_id db mission_id = Some mission →
  Mission.status mission ≠ "active" →
  fail_mission db mission_id user_id reason now = (false, db).
Proof.
  intros Hget Hstatus. unfold fail_mission. rewrite Hget.
  destruct (String.eqb_spec (Mission.status mission) "active"); done.
Qed.

(** A completion that reports success has stored the completed row. *)
Lemma complete_mission_true db mission_id user_id now db' :
  complete_mission db mission_id user_id now = Some (true, db') →
  ∃ mission,
    get_mission_by_id db mission_id = Some mission
    ∧ Mission.status mission = "active"
    ∧ get_mission_by_id db' mission_id
      = Some (mark_completed mission now).
Proof.
  unfold complete_mission, get_mission_by_id.
  destruct (missions db !! mission_id) as [mission|] eqn:Hget; [|done].
  destruct (String.eqb_spec (Mission.status mission) "active")
    as [Hact|Hnact]; simpl; [|done].
  intros Hrun. exists mission. split; [done|]. split; [done|].
  destruct (users db !! user_id) as [up|].
  - destruct (award_reward _ up _) as [[up1 session1]|]; simpl in Hrun;
      [|done].
    inversion Hrun; subst db'; simpl. by rewrite lookup_insert_eq.
  - inversion Hrun; subst db'; simpl. by rewrite lookup_insert_eq.
Qed.

(** A failure that reports success has stored the failed row. *)
Lemma fail_mission_true db mission_id user_id reason now db' :
  fail_mission db mission_id user_id reason now = (true, db') →
  ∃ mission,
    get_mission_by_id db mission_id = Some mission
    ∧ Mission.status mission = "active"
    ∧ get_mission_by_id db' mission_id
      = Some (mark_failed mission reason now).
Proof.
  unfold fail_mission, get_mission_by_id.
  destruct (missions db !! mission_id) as [mission|] eqn:Hget; [|done].
  destruct (String.eqb_spec (Mission.status mission) "active")
    as [Hact|Hnact]; simpl; [|done].
  intros Hrun. exists mission. split; [done|]. split; [done|].
  destruct (users db !! user_id) as [up|];
    inversion Hrun; subst db'; simpl; by rewrite lookup_insert_eq.
Qed.

End LifeCycle.

(** C8. On a mission whose status is not [active], [complete_mission] and
    [fail_mission] return [False] and leave every row and the ledger as they
    were. In particular, after a completion or a failure that succeeded, a
    second completion or failure of the same mission, by any user, changes
    nothing. *)
Theorem terminal_mission_is_final (db : Db) (mission_id : Z) :
  (∀ mission user_id reason now,
     get_mission_by_id db mission_id = Some mission →
     Mission.status mission ≠ "active" →
     complete_mission db mission_id user_id now = Some (false, db)
     ∧ fail_mission db mission_id user_id reason now = (false, db))
  ∧ (∀ user_id now db',
       complete_mission db mission_id user_id now = Some (true, db') →
       ∀ user_id2 reason2 now2,
         complete_mission db' mission_id user_id2 now2 = Some (false, db')
         ∧ fail_mission db' mission_id user_id2 reason2 now2 = (false, db'))
  ∧ (∀ user_id reason now db',
       fail_mission db mission_id user_id reason now = (true, db') →
       ∀ user_id2 reason2 now2,
         complete_mission db' mission_id user_id2 now2 = Some (false, db')
         ∧ fail_mission db' mission_id user_id2 reason2 now2 = (false, db')).
Proof.
  split; [|split].
  - intros mission user_id reason now Hget Hstatus. split.
    + by eapply complete_mission_guard.
    + by eapply fail_mission_guard.
  - intros user_id now db' Hrun user_id2 reason2 now2.
    apply complete_mission_true in Hrun as (mission & _ & _ & Hget').
    split.
    + by eapply complete_mission_guard.
    + by eapply fail_mission_guard.
  - intros user_id reason now db' Hrun user_id2 reason2 now2.
    apply fail_mission_true in Hrun as (mission & _ & _ & Hget').
    split.
    + by eapply complete_mission_guard.
    + by eapply fail_mission_guard.
Qed.

(** Completing, or failing, [mission0] for its player succeeds once; a second
    completion and a later failure are refused and change nothing; so are
    they on a mission completed earlier. *)
Lemma terminal_mission_is_final_witness :
  (∃ db',
     complete_mission db0 1 "u1" "2024-01-01T10:00:00" = Some (true, db')
     ∧ complete_mission db' 1 "u1" "2024-01-01T10:05:00" = Some (false, db')
     ∧ fail_mission db' 1 "u1" (Some "too late") "2024-01-01T10:05:00"
       = (false, db'))
  ∧ (∃ db',
       fail_mission db0 1 "u1" (Some "caught") "2024-01-01T10:00:00"
       = (true, db')
       ∧ complete_mission db' 1 "u1" "2024-01-01T10:05:00"
         = Some (false, db')
       ∧ fail_mission db' 1 "u1" None "2024-01-01T10:05:00" = (false, db'))
  ∧ get_mission_by_id db_done 3 = Some mission_done
  ∧ Mission.status mission_done ≠ "active"
  ∧ complete_mission db_done 3 "u1" noon = Some (false, db_done)
  ∧ fail_mission db_done 3 "u1" None noon = (false, db_done).
Proof.
  split; [|split].
  - assert (∃ db', complete_mission db0 1 "u1" "2024-01-01T10:00:00"
                   = Some (true, db')) as [db' Hrun].
    { vm_compute. eexists. reflexivity. }
    exists db'. split; [exact Hrun|].
    destruct (terminal_mission_is_final db0 1) as (_ & Hsecond & _).
    exact (Hsecond "u1" "2024-01-01T10:00:00" db' Hrun "u1"
             (Some "too late") "2024-01-01T10:05:00").
  - assert (∃ db', fail_mission db0 1 "u1" (Some "caught")
                     "2024-01-01T10:00:00" = (true, db')) as [db' Hrun].
    { vm_compute. eexists. reflexivity. }
    exists db'. split; [exact Hrun|].
    destruct (terminal_mission_is_final db0 1) as (_ & _ & Hsecond).
    exact (Hsecond "u1" (Some "caught") "2024-01-01T10:00:00" db' Hrun "u1"
             None "2024-01-01T10:05:00").
  - assert (get_mission_by_id db_done 3 = Some mission_done) as Hget
      by reflexivity.
    assert (Mission.status mission_done ≠ "active") as Hstatus
      by discriminate.
    split; [exact Hget|]. split; [exact Hstatus|].
    destruct (terminal_mission_is_final db_done 3) as (Hfirst & _).
    exact (Hfirst mission_done "u1" None noon Hget Hstatus).
Defined.

(** C10. When the mission is active and no progress row exists for the user,
    [complete_mission] returns [True]: the mission row becomes completed with
    progress 100, while the progress rows and the ledger stay as they were
    (no currency, no experience, no relationship change, no move between the
    mission lists). [fail_mission] likewise marks the mission failed and
    returns [True] with nothing else changed. *)
Theorem missing_player_is_skipped (db : Db) (mission_id : Z)
    (user_id : string) (reason : option string) (now : string)
    (mission : Mission.t) :
  get_mission_by_id db mission_id = Some mission →
  Mission.status mission = "active" →
  users db !! user_id = None →
  (complete_mission db mission_id user_id now
   = Some (true,
           mkDb (<[mission_id := mark_completed mission now]> (missions db))
                (users db) (transactions db))
   ∧ Mission.status (mark_completed mission now) = "completed"
   ∧ Mission.progress (mark_completed mission now) = 100)
  ∧ (fail_mission db mission_id user_id reason now
     = (true,
        mkDb (<[mission_id := mark_failed mission reason now]> (missions db))
             (users db) (transactions db))
     ∧ Mission.status (mark_failed mission reason now) = "failed").
Proof.
  intros Hget Hactive Huser.
  unfold complete_mission, fail_mission. rewrite Hget, Hactive, Huser.
  done.
Qed.

(** [mission0] completed, then failed, for a user id without a row. *)
Lemma missing_player_is_skipped_witness :
  get_mission_by_id db0 1 = Some mission0
  ∧ Mission.status mission0 = "active"
  ∧ users db0 !! "ghost" = None
  ∧ complete_mission db0 1 "ghost" noon
    = Some (true,
            mkDb (<[1 := mark_completed mission0 noon]> (missions db0))
                 (users db0) (transactions db0))
  ∧ fail_mission db0 1 "ghost" None noon
    = (true,
       mkDb (<[1 := mark_failed mission0 None noon]> (missions db0))
            (users db0) (transactions db0)).
Proof.
  assert (get_mission_by_id db0 1 = Some mission0) as Hget by reflexivity.
  assert (Mission.status mission0 = "active") as Hactive by reflexivity.
  assert (users db0 !! "ghost" = None) as Huser by reflexivity.
  pose proof (missing_player_is_skipped db0 1 "ghost" None noon mission0
                Hget Hactive Huser) as [[Hc _] [Hf _]].
  repeat split; assumption.
Defined.

(** C1, evaluated where the code departs from it. Completing an easy
    mission that pays 1500 dollars moves the balance from 1000 to 2500 and
    returns [True], and the ledger has no row for it: the reward is written
    into the balance dictionary directly, not through [add_currency]. *)
Theorem complete_mission_reward_bypasses_ledger :
  ∃ db' up',
    complete_mission db_plain 2 "u1" noon = Some (true, db')
    ∧ users db' !! "u1" = Some up'
    ∧ UserProgress.balance player0 "💵" = 1000
    ∧ UserProgress.balance up' "💵" = 2500
    ∧ transactions db_plain = []
    ∧ transactions db' = [].
Proof.
  do 2 eexists. split; [vm_compute; reflexivity|].
  split; [vm_compute; reflexivity|]. by vm_compute.
Qed.

(** With the level rising in the same completion, the only row is the one
    of the level bonus, which does go through [add_currency]. *)
Example complete_mission_only_bonus_row :
  ∃ db',
    complete_mission db0 1 "u1" noon = Some (true, db')
    ∧ transactions db'
      = [mkTransaction "u1" "level_up" None (Some "💶") 100
           "Level up bonus for reaching level 2" None].
Proof. eexists. split; [vm_compute; reflexivity|]. by vm_compute. Qed.

(** * Completion: what is applied together and what is skipped *)

Section Completion.
Import UserProgress.



(** It fails exactly on a character the player has not met. *)
Lemma change_character_relationship_fails self character_id delta reason
    now :
  (change_character_relationship self character_id delta reason now).1
  = false
  ↔ encountered_characters self !! pretty character_id = None.
Proof.
  unfold change_character_relationship.
  by destruct (encountered_characters self !! pretty character_id).
Qed.




(** The reward step of a completion, for a player whose experience points
    do not end negative. *)
Lemma award_reward_returns mission self session :
  0 ≤ experience_points self + xp_rewards (Mission.difficulty mission) →
  ∃ self' session',
    award_reward mission self session = Some (self', session')
    ∧ experience_points self'
      = experience_points self + xp_rewards (Mission.difficulty mission)
    ∧ level self'
      = Z.max (level self) (1 + Z.sqrt (experience_points self' / 100))
    ∧ encountered_characters self' = encountered_characters self
    ∧ completed_missions self'
      = completed_missions self ++ [Mission.id mission]
    ∧ (∀ c,
         balance self' c
         = balance self c
           + (if bool_decide (c = Mission.reward_currency mission)
              then Mission.reward_amount mission else 0)
           + (if bool_decide (c = "💶")
                 && bool_decide (level self < level self')
              then 50 * level self' else 0))
    ∧ (∀ tx, tx ∈ session' →
         tx ∈ session ∨ transaction_type tx = "level_up").
Proof.
  intros Hxp. unfold award_reward.
  match goal with
  | |- context [add_experience_points ?s _ _ _] => set (self3 := s)
  end.
  assert (∀ c, balance self3 c
               = balance self c
                 + (if bool_decide (c = Mission.reward_currency mission)
                    then Mission.reward_amount mission else 0)) as Hbal.
  { intros c. subst self3. unfold balance. simpl.
    destruct (currency_balances self !! Mission.reward_currency mission)
      as [b|] eqn:Hb; case_bool_decide as Hc; subst;
      rewrite ?lookup_insert_eq, ?lookup_insert_ne by done;
      rewrite ?Hb; simpl; lia. }
  rewrite add_experience_points_returns by (subst self3; simpl; lia).
  replace (experience_points self3) with (experience_points self)
    by (by subst self3).
  replace (level self3) with (level self) by (by subst self3).
  case_bool_decide as Hup; simpl.
  - do 2 eexists. split; [reflexivity|]. simpl.
    split; [done|]. split; [lia|]. split; [by subst self3|].
    split; [by subst self3|]. split.
    + intros c. unfold level_up_currency.
      rewrite (bool_decide_eq_true_2 _ Hup), andb_true_r.
      destruct (decide (c = "💶")) as [->|Hc].
      * rewrite balance_set_balance_eq, Hbal.
        rewrite (bool_decide_eq_true_2 ("💶" = "💶")) by done. lia.
      * rewrite balance_set_balance_ne by done.
        rewrite (bool_decide_eq_false_2 (c = "💶")) by done.
        match goal with
        | |- balance ?s c = _ => change (balance s c) with (balance self3 c)
        end.
        rewrite Hbal. lia.
    + intros tx Hin. apply elem_of_app in Hin as [Hin|Hin]; [by left|].
      right. apply list_elem_of_singleton in Hin. by subst tx.
  - do 2 eexists. split; [reflexivity|]. simpl.
    split; [done|]. split; [lia|]. split; [by subst self3|].
    split; [by subst self3|]. split.
    + intros c.
      rewrite (bool_decide_eq_false_2 (level self < level self)) by lia.
      rewrite andb_false_r.
      replace (balance (with_experience_points _ self3) c)
        with (balance self3 c) by done.
      rewrite Hbal. lia.
    + intros tx Hin. by left.
Qed.
End Completion.


Example complete_mission_partial_run :
  ∃ db' up',
    (UserProgress.change_character_relationship player0 7 2
       (Some "Successfully completed mission: Steal the plans") noon).1
    = false
    ∧ complete_mission db0 1 "u1" noon = Some (true, db')
    ∧ Mission.status <$> missions db' !! 1 = Some "completed"
    ∧ users db' !! "u1" = Some up'
    ∧ UserProgress.experience_points up' = 100
    ∧ rel_level up' "7" = None.
Proof.
  do 2 eexists. split; [by vm_compute|].
  split; [vm_compute; reflexivity|]. split; [by vm_compute|].
  split; [vm_compute; reflexivity|]. by vm_compute.
Qed.

(** The scenario of the specification, but for the currency: 100 experience
    points, the mission moved from the active to the completed list, the
    giver up by 2 and the target down by 3. *)
Example complete_mission_scenario :
  ∃ db' up',
    complete_mission db_social 4 "u4" noon = Some (true, db')
    ∧ users db' !! "u4" = Some up'
    ∧ UserProgress.experience_points up' = 100
    ∧ UserProgress.active_missions up' = []
    ∧ UserProgress.completed_missions up' = [4]
    ∧ rel_level up' "7" = Some 3
    ∧ rel_level up' "8" = Some (-3).
Proof.
  do 2 eexists. split; [vm_compute; reflexivity|].
  split; [vm_compute; reflexivity|]. by vm_compute.
Qed.

(** * The batch relationship update *)

Section CharMap.
Variables (table : ce_table) (user_id : string) (story_id : Z).

(** Every entry of the dictionary built from the query points at a row of
    the queried user and story whose character prints as the key. *)
Lemma build_char_map_sound rows i acc :
  (∀ n ce, rows !! n = Some ce → table !! (i + n)%nat = Some ce) →
  (∀ k j, acc !! k = Some j → row_matches table user_id story_id k j) →
  ∀ k j, build_char_map i rows user_id story_id acc !! k = Some j →
         row_matches table user_id story_id k j.
Proof.
  revert i acc.
  induction rows as [|ce rest IH]; intros i acc Hrows Hacc k j; simpl.
  - apply Hacc.
  - apply IH.
    + intros n ce' Hn. replace (S i + n)%nat with (i + S n)%nat by lia.
      by apply Hrows.
    + intros k' j'.
      destruct (String.eqb_spec (CharacterEvolution.user_id ce) user_id)
        as [Hu|_]; simpl; [|apply Hacc].
      destruct (Z.eqb_spec (CharacterEvolution.story_id ce) story_id)
        as [Hs|_]; [|apply Hacc].
      destruct (decide (pretty (CharacterEvolution.character_id ce) = k'))
        as [Hk|Hk].
      * subst k'. rewrite lookup_insert_eq. intros [= <-].
        exists ce. split; [|done].
        replace i with (i + 0)%nat by lia. by apply Hrows.
      * rewrite lookup_insert_ne by done. apply Hacc.
Qed.

Lemma char_map_of_sound k j :
  char_map_of table user_id story_id !! k = Some j →
  row_matches table user_id story_id k j.
Proof.
  apply build_char_map_sound.
  - intros n ce Hn. done.
  - intros k' j'. by rewrite lookup_empty.
Qed.


End CharMap.

Section BatchUpdate.
Variables (char_map : gmap string nat) (protagonist_id : Z) (now : string).
Hypothesis char_map_inj :
  ∀ k1 k2 j, char_map !! k1 = Some j → char_map !! k2 = Some j → k1 = k2.

Local Abbreviation entry table target_id cd :=
  (update_entry char_map protagonist_id now table target_id cd).
Local Abbreviation loop table changes :=
  (update_loop char_map protagonist_id now table changes).


Lemma length_update_relationship table j to_id rel_type strength :
  length (_update_relationship table j to_id rel_type strength now)
  = length table.
Proof. apply length_alter. Qed.

Lemma length_update_entry table target_id cd :
  length (entry table target_id cd) = length table.
Proof.
  unfold update_entry.
  destruct (char_map !! target_id); [|done].
  rewrite length_update_relationship.
  destruct (char_map !! pretty protagonist_id); [|done].
  apply length_update_relationship.
Qed.






Lemma length_update_loop table changes :
  length (loop table changes) = length table.
Proof.
  revert table. induction changes as [|[t cd] rest IH]; intros table; simpl.
  - done.
  - by rewrite IH, length_update_entry.
Qed.







End BatchUpdate.

Section CharMapComplete.
Variables (user_id : string) (story_id : Z).


End CharMapComplete.


Example lonely_target_run :
  (update_character_relationships table_lonely "u1" 1 1 changes0 noon)
  = (true,
     [CharacterEvolution.mk 11 "u1" 2 1
        {[ "1" := CharacterEvolution.mkEdge "rival" (-2) noon ]}]).
Proof. reflexivity. Qed.



(** * Further properties of the ledger methods *)

(** An affordable requirement is covered by its balance. *)
Lemma can_afford_covers self reqs c a :
  UserProgress.can_afford self reqs = true → (c, a) ∈ reqs →
  a ≤ UserProgress.balance self c.
Proof.
  intros Hafford Hin.
  destruct (Z.le_gt_cases a (UserProgress.balance self c)) as [|Hlt]; [done|].
  assert (UserProgress.can_afford self reqs = false) as Hfalse
    by (apply can_afford_false; by exists c, a).
  congruence.
Qed.

(** X1. [can_afford] answers yes exactly when every required currency has a
    balance, absent counted as 0, of at least the required amount; an empty
    dictionary of requirements is always affordable. *)
Theorem can_afford_iff (self : UserProgress.t) (reqs : list (string * Z)) :
  UserProgress.can_afford self reqs = true
  ↔ ∀ c a, (c, a) ∈ reqs → a ≤ UserProgress.balance self c.
Proof.
  destruct (UserProgress.can_afford self reqs) eqn:Hafford.
  - split; [|done]. intros _ c a Hin.
    destruct (Z.le_gt_cases a (UserProgress.balance self c)) as [|Hlt];
      [done|].
    assert (UserProgress.can_afford self reqs = false) as Hfalse
      by (apply can_afford_false; by exists c, a).
    congruence.
  - split; [discriminate|]. intros Hall.
    apply can_afford_false in Hafford as (c & a & Hin & Hlt).
    specialize (Hall c a Hin). lia.
Qed.

(** X3. [spend_currency] keeps the balances non-negative: if no balance is
    negative before the call, none is after it, whether the call succeeds or
    is refused and whatever the signs of the required amounts. *)
Theorem spend_currency_keeps_nonnegative (self : UserProgress.t)
    (session : list Transaction) (reqs : list (string * Z))
    (transaction_type description : string) (story_node_id : option Z)
    (c : string) :
  NoDup reqs.*1 →
  (∀ c', 0 ≤ UserProgress.balance self c') →
  0 ≤ UserProgress.balance
        (UserProgress.spend_currency self session reqs transaction_type
           description story_node_id).1.2 c.
Proof.
  intros Hnd Hpos. unfold UserProgress.spend_currency.
  destruct (UserProgress.can_afford self reqs) eqn:Hafford; simpl; [|done].
  destruct (UserProgress.spend_loop self session reqs transaction_type
              description story_node_id) as [self' session'] eqn:Hloop.
  simpl. replace self' with
    (UserProgress.spend_loop self session reqs transaction_type description
       story_node_id).1 by (by rewrite Hloop).
  unfold UserProgress.balance at 1.
  destruct (decide (c ∈ reqs.*1)) as [Hin|Hnin].
  - apply list_elem_of_fmap in Hin as ([c' a] & -> & Hin). simpl.
    rewrite (spend_loop_debited _ _ _ _ _ _ _ a Hnd Hin). simpl.
    pose proof (can_afford_covers _ _ _ _ Hafford Hin). lia.
  - rewrite spend_loop_other by done. apply Hpos.
Qed.

Lemma spend_currency_keeps_nonnegative_witness :
  NoDup [("💵", 300); ("💎", -5)].*1
  ∧ (∀ c', 0 ≤ UserProgress.balance player_spender c')
  ∧ 0 ≤ UserProgress.balance
          (UserProgress.spend_currency player_spender []
             [("💵", 300); ("💎", -5)] "choice_cost" "Odd price" None).1.2
          "💎".
Proof.
  assert (NoDup [("💵", 300); ("💎", -5)].*1) as Hnd.
  { simpl. apply NoDup_cons. split.
    - intros Hin. apply elem_of_cons in Hin as [Heq|Hin];
        [discriminate|by inversion Hin].
    - apply NoDup_cons. split; [intros Hin; by inversion Hin|apply NoDup_nil_2]. }
  assert (∀ c', 0 ≤ UserProgress.balance player_spender c') as Hpos.
  { assert (map_Forall (λ _ v, 0 ≤ v)
              (UserProgress.currency_balances player_spender)) as Hall
      by (apply (bool_decide_unpack
                   (map_Forall (λ (_ : string) (v : Z), 0 ≤ v)
                      (UserProgress.currency_balances player_spender)));
          by vm_compute).
    intros c'. unfold UserProgress.balance.
    destruct (UserProgress.currency_balances player_spender !! c')
      as [v|] eqn:Hv; simpl; [|lia].
    exact (Hall c' v Hv). }
  split; [exact Hnd|]. split; [exact Hpos|].
  exact (spend_currency_keeps_nonnegative player_spender []
           [("💵", 300); ("💎", -5)] "choice_cost" "Odd price" None "💎"
           Hnd Hpos).
Defined.

(** What the commit keeps of a player is the same after any number of
    debits in place. *)
Lemma after_commit_spend_loop loaded self session reqs ty d node :
  after_commit loaded (UserProgress.spend_loop self session reqs ty d node).1
  = after_commit loaded self.
Proof.
  revert self session.
  induction reqs as [|[c a] rest IH]; intros self session; simpl; [done|].
  by rewrite IH.
Qed.

Lemma after_commit_same self : after_commit self self = self.
Proof. by destruct self. Qed.

(** X26. [spend_currency] on positive required amounts, as the caller reads
    the player and the ledger back after the call. When some requirement
    exceeds its balance the call returns [False] and stores nothing.
    Otherwise it returns [True] and the ledger gains, in the order of the
    requirements, one row for each: the player's id, the type of the call,
    the currency as source, no target currency, the required amount, the
    description and the story node of the call. The stored balances are in
    both cases the ones the call found. *)
Theorem spend_currency_committed_rows (self : UserProgress.t)
    (session : list Transaction) (reqs : list (string * Z))
    (transaction_type description : string) (story_node_id : option Z) :
  (∀ c a, (c, a) ∈ reqs → 0 < a) →
  spend_currency_committed self session reqs transaction_type description
    story_node_id
  = if UserProgress.can_afford self reqs
    then (true, self,
          session
          ++ ((λ p : string * Z,
                 mkTransaction (UserProgress.user_id self) transaction_type
                   (Some p.1) None p.2 description story_node_id) <$> reqs))
    else (false, self, session).
Proof.
  intros Hpos. unfold spend_currency_committed.
  destruct (UserProgress.can_afford self reqs); simpl; [|done].
  pose proof (spend_loop_session transaction_type description story_node_id
                self session reqs) as Hrows.
  pose proof (after_commit_spend_loop self self session reqs transaction_type
                description story_node_id) as Hkept.
  destruct (UserProgress.spend_loop self session reqs transaction_type
              description story_node_id) as [self' session'].
  simpl in Hrows, Hkept. subst session'.
  rewrite Hkept, after_commit_same.
  assert (forallb
            (λ p : string * Z,
               row_accepted
                 (UserProgress.debit_row self transaction_type description
                    story_node_id p.1 p.2)) reqs = true) as ->; [|done].
  apply forallb_forall. intros [c a] Hin. unfold row_accepted. simpl.
  apply Z.ltb_lt, (Hpos c a). by apply list_elem_of_In.
Qed.

(** 300 dollars and 40 diamonds out of 500 and 40. *)
Lemma spend_currency_committed_rows_witness :
  (∀ c a, (c, a) ∈ [("💵", 300); ("💎", 40)] → 0 < a)
  ∧ spend_currency_committed player_spender [] [("💵", 300); ("💎", 40)]
      "choice_cost" "Bribe" (Some 3)
    = (true, player_spender,
       [mkTransaction "u2" "choice_cost" (Some "💵") None 300 "Bribe" (Some 3);
        mkTransaction "u2" "choice_cost" (Some "💎") None 40 "Bribe"
          (Some 3)]).
Proof.
  assert (∀ c a, (c, a) ∈ [("💵", 300); ("💎", 40)] → 0 < a) as Hpos.
  { intros c a Hin.
    apply elem_of_cons in Hin as [Heq|Hin]; [injection Heq as -> ->; lia|].
    apply elem_of_cons in Hin as [Heq|Hin]; [injection Heq as -> ->; lia|].
    by inversion Hin. }
  split; [exact Hpos|].
  exact (spend_currency_committed_rows player_spender []
           [("💵", 300); ("💎", 40)] "choice_cost" "Bribe" (Some 3) Hpos).
Defined.

(** * Encounters and relationship changes *)

Section Encounters.
Import UserProgress.




End Encounters.






(** * Levels *)

(** X8. On experience points in the range of their column (below 2^31) the
    level formula gives level [L] exactly on the points from
    [100 * (L - 1)^2] up to, not including, [100 * L^2]; it has no value,
    because the square root raises, exactly on negative points. *)
Theorem level_for_thresholds (xp L : Z) :
  xp < 2147483648 →
  UserProgress.level_for xp = Some L
  ↔ 1 ≤ L ∧ 100 * (L - 1) * (L - 1) ≤ xp < 100 * L * L.
Proof.
  intros _. unfold UserProgress.level_for.
  destruct (Z.ltb_spec xp 0) as [Hneg|Hpos].
  - split; [discriminate|]. intros (HL & Hlow & _). nia.
  - assert (0 ≤ xp / 100) as Hq by (apply Z.div_pos; lia).
    pose proof (Z.sqrt_spec (xp / 100) Hq) as [Hs1 Hs2].
    pose proof (Z.sqrt_nonneg (xp / 100)) as Hs0.
    pose proof (Z.div_mod xp 100 ltac:(lia)) as Hdiv.
    pose proof (Z.mod_pos_bound xp 100 ltac:(lia)) as Hmod.
    split.
    + intros [= <-]. split; [lia|]. split; nia.
    + intros (HL & Hlow & Hhigh). f_equal.
      assert (Z.sqrt (xp / 100) = L - 1) as ->; [|lia].
      apply Z.sqrt_unique. split; nia.
Qed.

(** 399 points are level 2, 400 are level 3. *)
Lemma level_for_thresholds_witness :
  399 < 2147483648
  ∧ UserProgress.level_for 399 = Some 2
  ∧ UserProgress.level_for 400 ≠ Some 2.
Proof.
  assert (399 < 2147483648) as Hlow by lia.
  assert (400 < 2147483648) as Hhigh by lia.
  split; [exact Hlow|]. split.
  - apply (level_for_thresholds 399 2 Hlow). lia.
  - intros Hlevel. apply (level_for_thresholds 400 2 Hhigh) in Hlevel. lia.
Defined.

(** X27. [add_experience_points], as the caller reads the player and the
    ledger back, when the new total of experience points is in the range of
    its column and not negative, and [L] is the level of that total (from
    [100 * (L - 1)^2] up to, not including, [100 * L^2]): the call returns,
    the total is stored, the level becomes [L] if [L] is above it and stays
    otherwise, and the flag says which. On a rise the ledger gains one row
    of type level_up crediting [50 * L] euros, and otherwise none. The
    stored balances are the ones the call found. *)
Theorem add_experience_points_committed_levels (self : UserProgress.t)
    (session : list Transaction) (points : Z) (reason : option string)
    (L : Z) :
  0 ≤ UserProgress.experience_points self + points →
  UserProgress.experience_points self + points < 2147483648 →
  1 ≤ L →
  100 * (L - 1) * (L - 1) ≤ UserProgress.experience_points self + points
  < 100 * L * L →
  let level_up := bool_decide (UserProgress.level self < L) in
  ∃ self',
    add_experience_points_committed self session points reason
    = Some (level_up, self',
            if level_up
            then session
                 ++ [mkTransaction (UserProgress.user_id self) "level_up"
                       None (Some "💶") (50 * L)
                       ("Level up bonus for reaching level " +:+ pretty L)
                       None]
            else session)
    ∧ UserProgress.experience_points self'
      = UserProgress.experience_points self + points
    ∧ UserProgress.level self' = Z.max (UserProgress.level self) L
    ∧ UserProgress.currency_balances self'
      = UserProgress.currency_balances self.
Proof.
  intros Hxp _ HL Hband level_up. subst level_up.
  assert (1 + Z.sqrt ((UserProgress.experience_points self + points) / 100)
          = L) as Hroot.
  { assert (Z.sqrt ((UserProgress.experience_points self + points) / 100)
            = L - 1) as ->; [|lia].
    pose proof (Z.div_mod (UserProgress.experience_points self + points) 100
                  ltac:(lia)) as Hdiv.
    pose proof (Z.mod_pos_bound (UserProgress.experience_points self + points)
                  100 ltac:(lia)) as Hmod.
    apply Z.sqrt_unique. split; nia. }
  unfold add_experience_points_committed.
  rewrite add_experience_points_returns by done. rewrite Hroot.
  destruct (bool_decide (UserProgress.level self < L)) eqn:Hup; simpl;
    eexists; (split; [reflexivity|]); simpl.
  - apply bool_decide_eq_true_1 in Hup. repeat split; try done. lia.
  - apply bool_decide_eq_false_1 in Hup. repeat split; try done. lia.
Qed.

(** 400 points make a new player level 3: one row of 150 euros. *)
Lemma add_experience_points_committed_levels_witness :
  0 ≤ UserProgress.experience_points player0 + 400
  ∧ UserProgress.experience_points player0 + 400 < 2147483648
  ∧ 1 ≤ 3
  ∧ 100 * (3 - 1) * (3 - 1) ≤ UserProgress.experience_points player0 + 400
    < 100 * 3 * 3
  ∧ ∃ self',
      add_experience_points_committed player0 [] 400 None
      = Some (true, self',
              [mkTransaction "u1" "level_up" None (Some "💶") 150
                 "Level up bonus for reaching level 3" None])
      ∧ UserProgress.level self' = 3
      ∧ UserProgress.balance self' "💶" = 0.
Proof.
  assert (0 ≤ UserProgress.experience_points player0 + 400) as Hxp
    by (by vm_compute).
  assert (UserProgress.experience_points player0 + 400 < 2147483648) as Hrange
    by (by vm_compute).
  assert (1 ≤ 3) as HL by lia.
  assert (100 * (3 - 1) * (3 - 1)
          ≤ UserProgress.experience_points player0 + 400 < 100 * 3 * 3)
    as Hband by (split; by vm_compute).
  do 4 (split; [assumption|]).
  destruct (add_experience_points_committed_levels player0 [] 400 None 3
              Hxp Hrange HL Hband) as (self' & Hrun & _ & Hlevel & Hkept).
  exists self'. split; [exact Hrun|]. split; [exact Hlevel|].
  unfold UserProgress.balance. rewrite Hkept. reflexivity.
Defined.




(** * Further properties of the mission life cycle *)

Section LifeCycleFrames.
Import UserProgress.





Lemma add_experience_points_columns self session points reason b self' session' :
  add_experience_points self session points reason = Some (b, self', session') →
  active_missions self' = active_missions self
  ∧ completed_missions self' = completed_missions self
  ∧ failed_missions self' = failed_missions self
  ∧ encountered_characters self' = encountered_characters self
  ∧ user_id self' = user_id self
  ∧ (session' = session
     ∨ ∃ new_level,
         session'
         = session
           ++ [mkTransaction (user_id self) "level_up" None (Some "💶")
                 (50 * new_level) (level_up_description new_level) None]).
Proof.
  unfold add_experience_points. simpl.
  destruct (level_for (experience_points self + points)) as [new_level|];
    simpl; [|done].
  case_bool_decide as Hup; intros [= <- <- <-]; simpl.
  - repeat split; try done. right. by exists new_level.
  - repeat split; try done. by left.
Qed.

Lemma change_character_relationship_lists self character_id delta reason now :
  let self' :=
    (change_character_relationship self character_id delta reason now).2 in
  active_missions self' = active_missions self
  ∧ completed_missions self' = completed_missions self
  ∧ failed_missions self' = failed_missions self
  ∧ currency_balances self' = currency_balances self
  ∧ experience_points self' = experience_points self
  ∧ level self' = level self.
Proof.
  unfold change_character_relationship.
  by destruct (encountered_characters self !! pretty character_id).
Qed.


Lemma record_failure_columns mission self now :
  let self' := record_failure mission self now in
  active_missions self'
  = (if mem_Z (Mission.id mission) (active_missions self)
     then remove_first (Mission.id mission) (active_missions self)
     else active_missions self)
  ∧ completed_missions self' = completed_missions self
  ∧ failed_missions self' = failed_missions self ++ [Mission.id mission]
  ∧ currency_balances self' = currency_balances self
  ∧ experience_points self' = experience_points self
  ∧ level self' = level self.
Proof.
  unfold record_failure.
  destruct (truthy_int (Mission.giver_id mission)); simpl; [|done].
  match goal with
  | |- context [change_character_relationship ?s ?c ?d ?r ?n] =>
      pose proof (change_character_relationship_lists s c d r n) as H;
      simpl in H; destruct H as (-> & -> & -> & -> & -> & ->)
  end. done.
Qed.

(** A completion that returns, opened up. *)
Lemma complete_mission_returns db mission_id user_id now b db' :
  complete_mission db mission_id user_id now = Some (b, db') →
  (b = false ∧ db' = db)
  ∨ ∃ mission,
      get_mission_by_id db mission_id = Some mission
      ∧ Mission.status mission = "active"
      ∧ b = true
      ∧ missions db'
        = <[mission_id := mark_completed mission now]> (missions db)
      ∧ ((users db !! user_id = None
          ∧ users db' = users db ∧ transactions db' = transactions db)
         ∨ ∃ up up1 session1,
             users db !! user_id = Some up
             ∧ award_reward (mark_completed mission now) up (transactions db)
               = Some (up1, session1)
             ∧ users db'
               = <[user_id := settle_relationships
                                (mark_completed mission now) up1 now]>
                   (users db)
             ∧ transactions db' = session1).
Proof.
  unfold complete_mission, get_mission_by_id.
  destruct (missions db !! mission_id) as [mission|] eqn:Hget;
    [|intros [= <- <-]; by left].
  destruct (String.eqb_spec (Mission.status mission) "active")
    as [Hact|Hnact]; simpl; [|intros [= <- <-]; by left].
  intros Hrun. right. exists mission. split; [done|]. split; [done|].
  destruct (users db !! user_id) as [up|] eqn:Huser.
  - destruct (award_reward _ up _) as [[up1 session1]|] eqn:Haward;
      simpl in Hrun; [|done].
    injection Hrun as <- <-. split; [done|]. split; [done|].
    right. by exists up, up1, session1.
  - injection Hrun as <- <-. split; [done|]. split; [done|]. by left.
Qed.

Lemma award_reward_lists mission self session self' session' :
  award_reward mission self session = Some (self', session') →
  active_missions self'
  = (if mem_Z (Mission.id mission) (active_missions self)
     then remove_first (Mission.id mission) (active_missions self)
     else active_missions self)
  ∧ completed_missions self'
    = completed_missions self ++ [Mission.id mission]
  ∧ failed_missions self' = failed_missions self
  ∧ user_id self' = user_id self
  ∧ (session' = session
     ∨ ∃ new_level,
         session'
         = session
           ++ [mkTransaction (user_id self) "level_up" None (Some "💶")
                 (50 * new_level) (level_up_description new_level) None]).
Proof.
  unfold award_reward.
  match goal with
  | |- context [add_experience_points ?s ?l ?p ?r] =>
      destruct (add_experience_points s l p r) as [[[b s1] l1]|] eqn:Hxp;
      simpl; [|done];
      apply add_experience_points_columns in Hxp
        as (Ha & Hc & Hf & _ & Hu & Hs)
  end.
  intros [= <- <-]. rewrite Ha, Hc, Hf, Hu. done.
Qed.

End LifeCycleFrames.



(** X10. [fail_mission] grants and takes nothing: whatever it returns, the
    ledger is as before, no player row appears or disappears, and every
    player keeps balances, experience points, level and list of completed
    missions. *)
Theorem fail_mission_spares_economy (db : Db) (mission_id : Z)
    (user_id : string) (reason : option string) (now : string) :
  let db' := (fail_mission db mission_id user_id reason now).2 in
  transactions db' = transactions db
  ∧ dom (users db') = dom (users db)
  ∧ ∀ u, economy <$> users db' !! u = economy <$> users db !! u.
Proof.
  unfold fail_mission, get_mission_by_id.
  destruct (missions db !! mission_id) as [mission|]; [|done].
  destruct (negb _); [done|].
  destruct (users db !! user_id) as [up|] eqn:Huser; simpl; [|done].
  split; [done|]. split.
  - apply dom_insert_lookup_L. by eexists.
  - intros u. destruct (decide (u = user_id)) as [->|Hne].
    + rewrite lookup_insert_eq, Huser. simpl. unfold economy.
      pose proof (record_failure_columns (mark_failed mission reason now)
                    up now) as (_ & -> & _ & -> & -> & ->).
      done.
    + by rewrite lookup_insert_ne.
Qed.

(** X11. A completion or a failure touches one mission row and one player
    row: every other mission and every other player is as before. *)
Theorem life_cycle_touches_one_mission_one_player (db : Db) (mission_id : Z)
    (user_id : string) (reason : option string) (now : string) :
  (∀ b db',
     complete_mission db mission_id user_id now = Some (b, db') →
     delete mission_id (missions db') = delete mission_id (missions db)
     ∧ delete user_id (users db') = delete user_id (users db))
  ∧ (let db' := (fail_mission db mission_id user_id reason now).2 in
     delete mission_id (missions db') = delete mission_id (missions db)
     ∧ delete user_id (users db') = delete user_id (users db)).
Proof.
  split.
  - intros b db' Hrun.
    apply complete_mission_returns in Hrun
      as [[_ ->]|(mission & _ & _ & _ & -> & Husers)]; [done|].
    rewrite delete_insert_eq. split; [done|].
    destruct Husers as [(_ & -> & _)|(up & up1 & s1 & _ & _ & -> & _)];
      [done|].
    by rewrite delete_insert_eq.
  - unfold fail_mission, get_mission_by_id.
    destruct (missions db !! mission_id) as [mission|]; [|done].
    destruct (negb _); [done|].
    destruct (users db !! user_id) as [up|]; simpl;
      by rewrite ?delete_insert_eq.
Qed.

(** Mission 1 completed for "u1": missions 5 and 6 and player "u5" stay. *)
Lemma life_cycle_touches_one_mission_one_player_witness :
  ∃ db',
    complete_mission db_busy 1 "u1" noon = Some (true, db')
    ∧ missions db' !! 5 = Some mission_second
    ∧ missions db' !! 6 = Some mission_other
    ∧ users db' !! "u5" = Some player_far.
Proof.
  assert (∃ db', complete_mission db_busy 1 "u1" noon = Some (true, db'))
    as [db' Hrun].
  { vm_compute. eexists. reflexivity. }
  exists db'. split; [exact Hrun|].
  destruct (life_cycle_touches_one_mission_one_player db_busy 1 "u1" None
              noon) as [Hframe _].
  destruct (Hframe true db' Hrun) as [Hm Hu].
  assert (∀ k, k ≠ 1 → missions db' !! k = missions db_busy !! k) as Hm'.
  { intros k Hk. rewrite <- (lookup_delete_ne (missions db') 1 k) by done.
    rewrite Hm. by rewrite lookup_delete_ne. }
  split; [rewrite Hm' by done; reflexivity|].
  split; [rewrite Hm' by done; reflexivity|].
  rewrite <- (lookup_delete_ne (users db') "u1" "u5") by done.
  rewrite Hu. reflexivity.
Defined.

(** X12. The only row a completion can add to the ledger is the row of a
    level bonus in euros: a completion that returns leaves the ledger as it
    was, or adds that one row at its end. *)
Theorem complete_mission_ledger_rows (db : Db) (mission_id : Z)
    (user_id now : string) (b : bool) (db' : Db) :
  complete_mission db mission_id user_id now = Some (b, db') →
  transactions db' = transactions db
  ∨ ∃ up new_level,
      users db !! user_id = Some up
      ∧ transactions db'
        = transactions db
          ++ [mkTransaction (UserProgress.user_id up) "level_up" None
                (Some "💶") (50 * new_level)
                (UserProgress.level_up_description new_level) None].
Proof.
  intros Hrun.
  apply complete_mission_returns in Hrun
    as [[_ ->]|(mission & _ & _ & _ & _ & Husers)]; [by left|].
  destruct Husers as [(_ & _ & ->)|(up & up1 & s1 & Hup & Haward & _ & ->)];
    [by left|].
  apply award_reward_lists in Haward as (_ & _ & _ & _ & [->|[L ->]]);
    [by left|].
  right. by exists up, L.
Qed.

Lemma complete_mission_ledger_rows_witness :
  ∃ db',
    complete_mission db0 1 "u1" noon = Some (true, db')
    ∧ (transactions db' = transactions db0
       ∨ ∃ up new_level,
           users db0 !! "u1" = Some up
           ∧ transactions db'
             = transactions db0
               ++ [mkTransaction (UserProgress.user_id up) "level_up" None
                     (Some "💶") (50 * new_level)
                     (UserProgress.level_up_description new_level) None]).
Proof.
  assert (∃ db', complete_mission db0 1 "u1" noon = Some (true, db'))
    as [db' Hrun].
  { vm_compute. eexists. reflexivity. }
  exists db'. split; [exact Hrun|].
  exact (complete_mission_ledger_rows db0 1 "u1" noon true db' Hrun).
Defined.





(** X15. After a completion or a failure that succeeded, the mission is in
    nobody's listing of active missions, and every listing is otherwise as
    before. *)
Theorem listing_drops_terminal_mission (db : Db) (mission_id : Z)
    (user_id : string) (reason : option string) (now : string) :
  (∀ db',
     complete_mission db mission_id user_id now = Some (true, db') →
     ∀ u, get_user_active_missions db' u
          = delete mission_id (get_user_active_missions db u))
  ∧ (∀ db',
       fail_mission db mission_id user_id reason now = (true, db') →
       ∀ u, get_user_active_missions db' u
            = delete mission_id (get_user_active_missions db u)).
Proof.
  split.
  - intros db' Hrun u.
    apply complete_mission_returns in Hrun
      as [[? _]|(mission & _ & _ & _ & Hm & _)]; [done|].
    unfold get_user_active_missions. rewrite Hm.
    rewrite map_filter_insert_False by (simpl; by intros [_ ?]).
    apply map_filter_delete.
  - intros db' Hrun u.
    assert (∃ mission,
              missions db'
              = <[mission_id := mark_failed mission reason now]> (missions db))
      as [mission Hm].
    { revert Hrun. unfold fail_mission, get_mission_by_id.
      destruct (missions db !! mission_id) as [mission|]; [|done].
      destruct (negb _); [done|].
      destruct (users db !! user_id); intros [= <-]; by exists mission. }
    unfold get_user_active_missions. rewrite Hm.
    rewrite map_filter_insert_False by (simpl; by intros [_ ?]).
    apply map_filter_delete.
Qed.

(** Of the two active missions of "u1", mission 1 completed leaves
    mission 5 listed. *)
Lemma listing_drops_terminal_mission_witness :
  ∃ db',
    complete_mission db_busy 1 "u1" noon = Some (true, db')
    ∧ get_user_active_missions db' "u1" !! 1 = None
    ∧ get_user_active_missions db' "u1" !! 5 = Some mission_second.
Proof.
  assert (∃ db', complete_mission db_busy 1 "u1" noon = Some (true, db'))
    as [db' Hrun].
  { vm_compute. eexists. reflexivity. }
  exists db'. split; [exact Hrun|].
  destruct (listing_drops_terminal_mission db_busy 1 "u1" None noon)
    as [Hlist _].
  rewrite (Hlist db' Hrun "u1"). split.
  - apply lookup_delete_eq.
  - rewrite lookup_delete_ne by done. reflexivity.
Defined.

(** X16. While the experience points a completion would leave are in the
    range of their column (below 2^31), [complete_mission] raises (the level
    formula meets negative experience points) exactly when the mission is
    active, the player exists, and the player's experience points plus the
    reward of the mission's difficulty are negative. *)
Theorem complete_mission_raises_iff (db : Db) (mission_id : Z)
    (user_id now : string) :
  (∀ mission up,
     get_mission_by_id db mission_id = Some mission →
     users db !! user_id = Some up →
     UserProgress.experience_points up
     + xp_rewards (Mission.difficulty mission) < 2147483648) →
  complete_mission db mission_id user_id now = None
  ↔ ∃ mission up,
      get_mission_by_id db mission_id = Some mission
      ∧ Mission.status mission = "active"
      ∧ users db !! user_id = Some up
      ∧ UserProgress.experience_points up
        + xp_rewards (Mission.difficulty mission) < 0.
Proof.
  intros _. unfold complete_mission, get_mission_by_id.
  destruct (missions db !! mission_id) as [mission|] eqn:Hget.
  2:{ split; [done|]. by intros (? & ? & ? & _). }
  destruct (String.eqb_spec (Mission.status mission) "active")
    as [Hact|Hnact]; simpl.
  2:{ split; [done|]. intros (m & ? & [= <-] & ? & _). done. }
  destruct (users db !! user_id) as [up|] eqn:Huser.
  2:{ split; [done|]. by intros (? & ? & _ & _ & ? & _). }
  destruct (Z.lt_ge_cases
              (UserProgress.experience_points up
               + xp_rewards (Mission.difficulty mission)) 0) as [Hneg|Hpos].
  - unfold award_reward, UserProgress.add_experience_points. simpl.
    rewrite level_for_negative by done. simpl.
    split; [|done]. intros _. by exists mission, up.
  - destruct (award_reward_returns (mark_completed mission now) up
                (transactions db) Hpos) as (up1 & s1 & -> & _).
    simpl. split; [done|].
    intros (m & u & [= <-] & _ & [= <-] & Hlt). lia.
Qed.

(** A player at -500 experience points completes an easy mission. *)
Lemma complete_mission_raises_iff_witness :
  (∀ mission up,
     get_mission_by_id db_indebted 2 = Some mission →
     users db_indebted !! "u6" = Some up →
     UserProgress.experience_points up
     + xp_rewards (Mission.difficulty mission) < 2147483648)
  ∧ complete_mission db_indebted 2 "u6" noon = None.
Proof.
  assert (∀ mission up,
            get_mission_by_id db_indebted 2 = Some mission →
            users db_indebted !! "u6" = Some up →
            UserProgress.experience_points up
            + xp_rewards (Mission.difficulty mission) < 2147483648)
    as Hrange.
  { intros mission up Hget Huser.
    injection Hget as <-. injection Huser as <-. by vm_compute. }
  split; [exact Hrange|].
  apply (complete_mission_raises_iff db_indebted 2 "u6" noon Hrange).
  exists mission_plain, player_indebted.
  split; [reflexivity|]. split; [reflexivity|]. split; [reflexivity|].
  by vm_compute.
Defined.

Example complete_mission_raises_run :
  complete_mission db_indebted 2 "u6" noon = None.
Proof. reflexivity. Qed.

(** A larger amount passes every threshold a smaller one passes. *)
Lemma exceeds_mono a1 a2 base factor :
  a1 ≤ a2 → exceeds a1 base factor = true → exceeds a2 base factor = true.
Proof.
  intros Hle H1. apply exceeds_spec. apply exceeds_spec in H1.
  eapply Qlt_le_trans; [exact H1|].
  unfold Qle. simpl. lia.
Qed.

(** X17. Difficulty inference is monotone in the reward: within one
    currency, a larger amount never gets an easier difficulty. The inference
    has no value exactly for a currency outside the table of base rewards. *)
Theorem infer_difficulty_monotone (a1 a2 : Z) (currency d1 d2 : string) :
  (infer_difficulty a1 currency = None ↔ BASE_REWARDS currency = None)
  ∧ (a1 ≤ a2 →
     infer_difficulty a1 currency = Some d1 →
     infer_difficulty a2 currency = Some d2 →
     (difficulty_rank d1 ≤ difficulty_rank d2)%nat).
Proof.
  unfold infer_difficulty.
  destruct (BASE_REWARDS currency) as [base|]; simpl; [|done].
  split; [done|]. intros Hle.
  destruct (exceeds a1 base 2.5) eqn:Hh1.
  - rewrite (exceeds_mono _ _ _ _ Hle Hh1). intros [= <-] [= <-].
    vm_compute. lia.
  - destruct (exceeds a1 base 1.5) eqn:Hm1.
    + rewrite (exceeds_mono _ _ _ _ Hle Hm1).
      destruct (exceeds a2 base 2.5); intros [= <-] [= <-]; vm_compute; lia.
    + intros [= <-] _. vm_compute. lia.
Qed.

Lemma infer_difficulty_monotone_witness :
  2000 ≤ 4000
  ∧ infer_difficulty 2000 "💵" = Some "easy"
  ∧ infer_difficulty 4000 "💵" = Some "hard"
  ∧ (difficulty_rank "easy" ≤ difficulty_rank "hard")%nat.
Proof.
  assert (2000 ≤ 4000) as Hle by lia.
  split; [exact Hle|]. split; [reflexivity|]. split; [reflexivity|].
  exact (proj2 (infer_difficulty_monotone 2000 4000 "💵" "easy" "hard")
           Hle eq_refl eq_refl).
Defined.

(** * Traits, role and plot of a character *)

Section Sheet.
Import CharacterSheet.



End Sheet.





(** * Further properties of the relationship network *)


Section BatchFrame.
Variables (char_map : gmap string nat) (protagonist_id : Z) (now : string).

Lemma update_relationship_lookup table j to_id rel_type strength i :
  _update_relationship table j to_id rel_type strength now !! i
  = if bool_decide (i = j)
    then (λ ce, CharacterEvolution.add_relationship ce to_id rel_type
                  strength now) <$> table !! i
    else table !! i.
Proof.
  unfold _update_relationship. case_bool_decide as Hij.
  - subst. apply list_lookup_alter_eq.
  - by apply list_lookup_alter_ne.
Qed.

(** An entry changes no row outside the dictionary, and no identity column
    of any row. *)
Lemma update_entry_frame table target_id cd i :
  identity_columns
    <$> update_entry char_map protagonist_id now table target_id cd !! i
  = identity_columns <$> table !! i
  ∧ ((∀ k, char_map !! k ≠ Some i) →
     update_entry char_map protagonist_id now table target_id cd !! i
     = table !! i).
Proof.
  unfold update_entry.
  destruct (char_map !! target_id) as [it|] eqn:Ht; [|done].
  destruct (char_map !! pretty protagonist_id) as [ip|] eqn:Hp;
    rewrite ?update_relationship_lookup; split;
    repeat case_bool_decide; subst;
    try (intros Hout; exfalso; by eapply Hout);
    try done;
    rewrite ?update_relationship_lookup; repeat case_bool_decide; subst;
    try done;
    by destruct (table !! _).
Qed.

Lemma update_loop_frame table changes i :
  identity_columns
    <$> update_loop char_map protagonist_id now table changes !! i
  = identity_columns <$> table !! i
  ∧ ((∀ k, char_map !! k ≠ Some i) →
     update_loop char_map protagonist_id now table changes !! i
     = table !! i).
Proof.
  revert table. induction changes as [|[t cd] rest IH]; intros table; simpl.
  - done.
  - destruct (IH (update_entry char_map protagonist_id now table t cd))
      as [Hcols Hout].
    destruct (update_entry_frame table t cd i) as [Hcols' Hout'].
    split; [by rewrite Hcols|].
    intros Hnone. by rewrite Hout, Hout'.
Qed.

End BatchFrame.

(** X22. The batch update changes nothing but relationship networks of rows
    of the queried user and story: the table keeps its length, every row
    keeps its id, user, character and story, and a row of another user or
    another story is left exactly as it was. *)
Theorem update_character_relationships_frame (table : ce_table)
    (user_id : string) (story_id protagonist_id : Z)
    (changes : list (string * change_data)) (now : string) :
  let table' :=
    (update_character_relationships table user_id story_id protagonist_id
       changes now).2 in
  length table' = length table
  ∧ (∀ i, identity_columns <$> table' !! i = identity_columns <$> table !! i)
  ∧ ∀ i ce,
      table !! i = Some ce →
      ¬ (CharacterEvolution.user_id ce = user_id
         ∧ CharacterEvolution.story_id ce = story_id) →
      table' !! i = Some ce.
Proof.
  simpl. split; [apply length_update_loop|]. split.
  - intros i. apply update_loop_frame.
  - intros i ce Hrow Hother.
    destruct (update_loop_frame (char_map_of table user_id story_id)
                protagonist_id now table changes i) as [_ Hout].
    rewrite Hout; [done|].
    intros k Hk. apply char_map_of_sound in Hk as (ce' & Hrow' & Hu & Hs & _).
    apply Hother. by assert (ce' = ce) as -> by congruence.
Qed.

(** The rows of user "u5" and of story 2 pass through a batch of user "u1"
    in story 1 that names their character. *)
Lemma update_character_relationships_frame_witness :
  ∃ ce5 ce2,
    table_mixed !! 2%nat = Some ce5
    ∧ ¬ (CharacterEvolution.user_id ce5 = "u1"
         ∧ CharacterEvolution.story_id ce5 = 1)
    ∧ table_mixed !! 3%nat = Some ce2
    ∧ ¬ (CharacterEvolution.user_id ce2 = "u1"
         ∧ CharacterEvolution.story_id ce2 = 1)
    ∧ (update_character_relationships table_mixed "u1" 1 1 changes0 noon).2
        !! 2%nat = Some ce5
    ∧ (update_character_relationships table_mixed "u1" 1 1 changes0 noon).2
        !! 3%nat = Some ce2.
Proof.
  destruct (update_character_relationships_frame table_mixed "u1" 1 1
              changes0 noon) as (_ & _ & Hframe).
  do 2 eexists.
  split; [reflexivity|].
  assert (¬ (CharacterEvolution.user_id
               (CharacterEvolution.mk 12 "u5" 2 1
                  {[ "1" := CharacterEvolution.mkEdge "friend" 3
                              "2023-12-01T00:00:00" ]}) = "u1"
             ∧ CharacterEvolution.story_id
                 (CharacterEvolution.mk 12 "u5" 2 1
                    {[ "1" := CharacterEvolution.mkEdge "friend" 3
                                "2023-12-01T00:00:00" ]}) = 1)) as H5
    by (intros [? _]; discriminate).
  split; [exact H5|]. split; [reflexivity|].
  assert (¬ (CharacterEvolution.user_id (CharacterEvolution.mk 13 "u1" 2 2 ∅)
             = "u1"
             ∧ CharacterEvolution.story_id
                 (CharacterEvolution.mk 13 "u1" 2 2 ∅) = 1)) as H2
    by (intros [_ ?]; discriminate).
  split; [exact H2|]. split.
  - exact (Hframe 2%nat _ eq_refl H5).
  - exact (Hframe 3%nat _ eq_refl H2).
Defined.

(** * Field extraction *)

Lemma truthy_str_spec (o : option string) :
  truthy_str o = true ↔ ∃ v, o = Some v ∧ v ≠ "".
Proof.
  destruct o as [v|]; simpl.
  - rewrite negb_true_iff. destruct (String.eqb_spec v "") as [->|Hne].
    + split; [done|]. by intros (v & [= <-] & ?).
    + split; [|done]. intros _. by exists v.
  - split; [done|]. by intros (v & ? & _).
Qed.

(** X23. [extract_field] returns the value under the field if it is not
    empty, else the value under the alternative field if that is not empty,
    else the default: an empty value counts as a missing one, and the result
    is empty only if the default is. *)
Theorem extract_field_falls_back (data : option (gmap string string))
    (field : string) (alt_field : option string) (default_value : string) :
  (extract_field data field alt_field default_value = "" →
   default_value = "")
  ∧ (∀ d v, data = Some d → d !! field = Some v → v ≠ "" →
       extract_field data field alt_field default_value = v)
  ∧ (∀ d k w, data = Some d → truthy_str (d !! field) = false →
       alt_field = Some k → d !! k = Some w → w ≠ "" →
       extract_field data field alt_field default_value = w)
  ∧ (∀ d, data = Some d → truthy_str (d !! field) = false →
       truthy_str (alt_field ≫= λ k, d !! k) = false →
       extract_field data field alt_field default_value = default_value).
Proof.
  unfold extract_field. split; [|split; [|split]].
  - destruct data as [d|]; [|done].
    case_bool_decide; [done|].
    destruct (truthy_str (d !! field)) eqn:H1.
    { apply truthy_str_spec in H1 as (v & -> & Hv). simpl. by intros ->. }
    destruct (truthy_str (alt_field ≫= λ k, d !! k)) eqn:H2; [|done].
    apply truthy_str_spec in H2 as (v & -> & Hv). simpl. by intros ->.
  - intros d v -> Hv Hne.
    rewrite bool_decide_eq_false_2 by (intros ->; by rewrite lookup_empty in Hv).
    assert (truthy_str (d !! field) = true) as ->
      by (apply truthy_str_spec; by exists v).
    by rewrite Hv.
  - intros d k w -> H1 -> Hw Hne.
    rewrite bool_decide_eq_false_2 by (intros ->; by rewrite lookup_empty in Hw).
    rewrite H1. simpl.
    assert (truthy_str (d !! k) = true) as ->
      by (apply truthy_str_spec; by exists w).
    by rewrite Hw.
  - intros d -> H1 H2. case_bool_decide; [done|]. by rewrite H1, H2.
Qed.

(** A character whose name is stored empty under [name] and in full under
    [character_name]; and no data at all. *)
Lemma extract_field_falls_back_witness :
  extract_character_name
    (Some {[ "name" := ""; "character_name" := "Mara" ]}) = "Mara"
  ∧ extract_character_name None = "Unnamed Character"
  ∧ extract_character_style None = "".
Proof.
  split; [|split; reflexivity].
  destruct (extract_field_falls_back
              (Some {[ "name" := ""; "character_name" := "Mara" ]})
              "name" (Some "character_name") "Unnamed Character")
    as (_ & _ & Halt & _).
  apply (Halt _ "character_name" "Mara" eq_refl); try reflexivity.
  discriminate.
Defined.

(** * The completion route of the server *)

Section Route.
Import App.

(** The search finds the first mission with the id. *)
Lemma find_mission_spec mission_id l i0 i m :
  find_mission mission_id l i0 = Some (i, m) →
  ∃ j, i = (i0 + j)%nat ∧ l !! j = Some m ∧ id m = mission_id
       ∧ ∀ j' m', (j' < j)%nat → l !! j' = Some m' → id m' ≠ mission_id.
Proof.
  revert i0. induction l as [|x l IH]; intros i0; simpl; [done|].
  destruct (Z.eqb_spec (id x) mission_id) as [Hid|Hid].
  - intros [= <- <-]. exists 0%nat. split; [lia|]. split; [done|].
    split; [done|]. intros j' m' Hlt. lia.
  - intros Hfind. apply IH in Hfind as (j & -> & Hj & Hm & Hbefore).
    exists (S j). split; [lia|]. split; [done|]. split; [done|].
    intros [|j'] m' Hlt; simpl.
    + by intros [= <-].
    + apply Hbefore. lia.
Qed.

Lemma find_mission_None mission_id l i0 :
  find_mission mission_id l i0 = None ↔ ∀ m, m ∈ l → id m ≠ mission_id.
Proof.
  revert i0. induction l as [|x l IH]; intros i0; simpl.
  - split; [|done]. intros _ m Hin. inversion Hin.
  - destruct (Z.eqb_spec (id x) mission_id) as [Hid|Hid].
    + split; [done|]. intros Hall. exfalso. apply (Hall x); [left|done].
    + rewrite IH. split.
      * intros Hall m Hin. apply elem_of_cons in Hin as [->|Hin]; auto.
      * intros Hall m Hin. apply Hall. by right.
Qed.

(** [remove] lands on the position of the element that was assigned to,
    when no element before it equals the assigned value. *)
Lemma list_remove_assigned x l j :
  (j < length l)%nat →
  (∀ j' m', (j' < j)%nat → l !! j' = Some m' → m' ≠ x) →
  list_remove x (<[j := x]> l) = Some (delete j l).
Proof.
  revert j. induction l as [|y l IH]; intros j Hlen Hbefore; simpl in *;
    [lia|].
  destruct j as [|j]; simpl.
  - by rewrite decide_True.
  - rewrite decide_False by (apply (Hbefore 0%nat); [lia|done]).
    rewrite IH; [done|lia|].
    intros j' m' Hlt. apply (Hbefore (S j')). lia.
Qed.

End Route.

(** X24. The route, on a mission it finds among the active missions of an
    existing user whose experience points end neither negative nor at 2^31
    or more (where the floating-point root of the level formula is exact),
    answers with success: the mission found, and only it, leaves the active list from
    its own position and joins the completed list as completed with progress
    100; the reward (1000 dollars by default) is added to its currency and
    to nothing else; 100 experience points are added; the level becomes the
    formula's value if that is higher; and no level bonus is paid. *)
Theorem complete_mission_route_success (users : gmap string App.user_data)
    (user_id : string) (mission_id : Z) (ud : App.user_data) (i : nat)
    (m : App.mission) :
  users !! user_id = Some ud →
  App.find_mission mission_id (App.active_missions ud) 0 = Some (i, m) →
  0 ≤ App.experience_points ud + 100 →
  App.experience_points ud + 100 < 2147483648 →
  let mission :=
    App.mkMission (App.id m) (App.title m) (App.description m) "completed"
                  (App.reward_currency m) (App.reward_amount m) 100
                  (App.story_id m) in
  let currency := default "💵" (App.reward_currency m) in
  let new_level := 1 + Z.sqrt ((App.experience_points ud + 100) / 100) in
  let ud' :=
    App.mkUser (Z.max (App.level ud) new_level)
      (App.experience_points ud + 100)
      (<[currency := default 0 (App.currency_balances ud !! currency)
                     + default 1000 (App.reward_amount m)]>
         (App.currency_balances ud))
      (delete i (App.active_missions ud))
      (App.completed_missions ud ++ [mission]) in
  App.complete_mission_route users (Some user_id) mission_id
  = (App.Success ud' (bool_decide (App.level ud < new_level)),
     <[user_id := ud']> users)
  ∧ App.active_missions ud !! i = Some m
  ∧ App.id m = mission_id.
Proof.
  intros Huser Hfind Hxp _. simpl.
  unfold App.complete_mission_route. simpl. rewrite Huser, Hfind.
  apply find_mission_spec in Hfind as (j & -> & Hj & Hid & Hbefore).
  simpl. rewrite list_remove_assigned.
  - rewrite level_for_nonneg by done.
    case_bool_decide as Hup.
    + rewrite Z.max_r by lia. done.
    + rewrite Z.max_l by lia. done.
  - by eapply lookup_lt_Some.
  - intros j' m' Hlt Hm' ->. by apply (Hbefore j' _ Hlt Hm').
Qed.

(** The second mission of the store has no reward keys: 1000 dollars. *)
Lemma complete_mission_route_success_witness :
  app_users !! "default_user"
  = Some (App.mkUser 1 0 {[ "💵" := 5000; "💷" := 5000 ]}
            [app_mission_a; app_mission_b] [])
  ∧ App.find_mission 2 [app_mission_a; app_mission_b] 0
    = Some (1%nat, app_mission_b)
  ∧ 0 ≤ 0 + 100
  ∧ 0 + 100 < 2147483648
  ∧ ∃ ud',
      App.complete_mission_route app_users None 2
      = (App.Success ud' true, <["default_user" := ud']> app_users)
      ∧ App.active_missions ud' = [app_mission_a]
      ∧ App.currency_balances ud' !! "💵" = Some 6000
      ∧ App.level ud' = 2.
Proof.
  assert (app_users !! "default_user"
          = Some (App.mkUser 1 0 {[ "💵" := 5000; "💷" := 5000 ]}
                    [app_mission_a; app_mission_b] [])) as Huser
    by reflexivity.
  assert (App.find_mission 2 [app_mission_a; app_mission_b] 0
          = Some (1%nat, app_mission_b)) as Hfind by reflexivity.
  assert (0 ≤ 0 + 100) as Hxp by lia.
  assert (0 + 100 < 2147483648) as Hrange by lia.
  do 4 (split; [assumption|]).
  destruct (complete_mission_route_success app_users "default_user" 2 _ _ _
              Huser Hfind Hxp Hrange) as (Hrun & _).
  eexists. split; [exact Hrun|]. split; [reflexivity|].
  split; [by vm_compute|reflexivity].
Defined.

(** X25. The route refuses a second completion: when the ids of a user's
    active missions are distinct, a call that succeeded is followed, for the
    same user and mission id, by the answer 404 "Mission not found", and
    that answer leaves the store as it is. *)
Theorem complete_mission_route_once (users : gmap string App.user_data)
    (user_id : option string) (mission_id : Z) (ud ud' : App.user_data)
    (level_up : bool) (users' : gmap string App.user_data) :
  users !! default "default_user" user_id = Some ud →
  NoDup (App.id <$> App.active_missions ud) →
  App.complete_mission_route users user_id mission_id
  = (App.Success ud' level_up, users') →
  App.complete_mission_route users' user_id mission_id
  = (App.Error 404 "Mission not found", users').
Proof.
  intros Huser Hnd. unfold App.complete_mission_route at 1. simpl.
  rewrite Huser.
  destruct (App.find_mission mission_id (App.active_missions ud) 0)
    as [[i m]|] eqn:Hfind; [|done].
  apply find_mission_spec in Hfind as (j & -> & Hj & Hid & Hbefore).
  simpl. rewrite list_remove_assigned.
  2:{ by eapply lookup_lt_Some. }
  2:{ intros j' m' Hlt Hm' ->. by apply (Hbefore j' _ Hlt Hm'). }
  destruct (UserProgress.level_for _); [|done].
  intros [= <- _ <-].
  unfold App.complete_mission_route. simpl. rewrite lookup_insert_eq. simpl.
  assert (App.find_mission mission_id (delete j (App.active_missions ud)) 0
          = None) as ->; [|done].
  apply find_mission_None. intros m' Hin Hid'.
  apply list_elem_of_lookup in Hin as [k Hk].
  rewrite list_lookup_delete in Hk.
  assert (∀ a b, (a ≠ b)%nat → App.active_missions ud !! a = Some m' →
                 App.active_missions ud !! b = Some m → False) as Hclash.
  { intros a b Hab Ha Hb. apply Hab.
    eapply (NoDup_lookup _ a b (App.id m'));
      [exact Hnd| |]; rewrite list_lookup_fmap.
    - by rewrite Ha.
    - rewrite Hb. simpl. congruence. }
  case_decide.
  - eapply (Hclash k j); [lia|done|done].
  - eapply (Hclash (S k) j); [lia|done|done].
Qed.

Lemma complete_mission_route_once_witness :
  ∃ ud' users',
    NoDup (App.id <$> [app_mission_a; app_mission_b])
    ∧ App.complete_mission_route app_users None 1
      = (App.Success ud' true, users')
    ∧ App.complete_mission_route users' None 1
      = (App.Error 404 "Mission not found", users').
Proof.
  assert (NoDup (App.id <$> [app_mission_a; app_mission_b])) as Hnd.
  { apply (bool_decide_unpack
             (NoDup (App.id <$> [app_mission_a; app_mission_b]))).
    by vm_compute. }
  assert (∃ ud' users',
            App.complete_mission_route app_users None 1
            = (App.Success ud' true, users')) as (ud' & users' & Hrun).
  { vm_compute. do 2 eexists. reflexivity. }
  exists ud', users'. split; [exact Hnd|]. split; [exact Hrun|].
  exact (complete_mission_route_once app_users None 1 _ ud' true users'
           eq_refl Hnd Hrun).
Defined.
